(** * PyAbsence: the presence-debounce controller and its MQTT notifier

    A shallow embedding of [app.py].  Python integers are unbounded, so
    they are [Z]; [str] is [string]; a list is a [list].  Calls into the
    outside world ([who], the paho client, [sleep]) go through an
    explicit interface whose operations may raise, and every such call
    and every [logging.info] is recorded in a trace. *)

From Stdlib Require Import ZArith Ascii String List Bool Lia Arith.
From Equations Require Import Equations.
From Equations.Prop Require Import Logic.
Import ListNotations.
Local Open Scope string_scope.
Local Open Scope list_scope.
Local Open Scope Z_scope.

(** ** Python values and outcomes *)

(** A Python exception, identified by its class name. *)
Inductive exn : Type :=
| PyExn (name : string).

(** What a Python call does: return a value or raise. *)
Inductive outcome (A : Type) : Type :=
| Ret (a : A)
| Raise (e : exn).
Arguments Ret {A} a.
Arguments Raise {A} e.

(** [sum(xs)] of a list of integers: left to right, from 0. *)
Definition py_sum (xs : list Z) : Z := fold_left Z.add xs 0.

(** [s in xs] for a list of strings. *)
Definition py_in (s : string) (xs : list string) : bool :=
  existsb (String.eqb s) xs.

(** A record returned by [who()]: a sequence of fields, the hardware
    address at index 3. *)
Definition device : Type := list string.

(** [device[3]]: raises [IndexError] on a record that is too short. *)
Definition device_mac (d : device) : outcome string :=
  match nth_error d 3 with
  | Some m => Ret m
  | None => Raise (PyExn "IndexError")
  end.

(** [[device[3] for device in devices]]. *)
Fixpoint mac_addresses_of (devices : list device) : outcome (list string) :=
  match devices with
  | [] => Ret []
  | d :: ds =>
      match device_mac d with
      | Raise e => Raise e
      | Ret m =>
          match mac_addresses_of ds with
          | Raise e => Raise e
          | Ret ms => Ret (m :: ms)
          end
      end
  end.

(** ** Configuration *)

(** [PyAbsenceConfig]. *)
Record PyAbsenceConfig : Type := mkConfig {
  triggers : list string;
  delay : Z;
  retries : Z;
  mqttBroker : string;
  mqttPort : Z;
  mqttTopic : string;
  mqttClient : string
}.

(** [str.split(",")]: the pieces between commas; never an empty list. *)
Fixpoint split_comma (s : string) : list string :=
  match s with
  | EmptyString => [EmptyString]
  | String c rest =>
      if Ascii.eqb c ","%char then EmptyString :: split_comma rest
      else match split_comma rest with
           | [] => [String c EmptyString]
           | piece :: pieces => String c piece :: pieces
           end
  end.

Section ConfigLoading.
(** [os.environ] as a lookup, and the builtin [int] on a string, which
    either yields an integer or raises [ValueError]. *)
Variable environ : string -> option string.
Variable py_int : string -> outcome Z.

(** [getenv(name, required)]. *)
Definition getenv (name : string) (required : bool) : outcome string :=
  let value := match environ name with Some v => v | None => "" end in
  if String.eqb value "" && required
  then Raise (PyExn "Exception")
  else Ret value.

(** [PyAbsenceConfig.__init__]: seven required variables read in order;
    the three numeric ones go through [int] and nothing else. *)
Definition PyAbsenceConfig_init : outcome PyAbsenceConfig :=
  match getenv "PYABS_TRIGGERS" true with
  | Raise e => Raise e
  | Ret trig =>
  match getenv "PYABS_DELAY" true with
  | Raise e => Raise e
  | Ret sdelay =>
  match py_int sdelay with
  | Raise e => Raise e
  | Ret vdelay =>
  match getenv "PYABS_RETRIES" true with
  | Raise e => Raise e
  | Ret sretries =>
  match py_int sretries with
  | Raise e => Raise e
  | Ret vretries =>
  match getenv "MQTT_BROKER" true with
  | Raise e => Raise e
  | Ret broker =>
  match getenv "MQTT_PORT" true with
  | Raise e => Raise e
  | Ret sport =>
  match py_int sport with
  | Raise e => Raise e
  | Ret vport =>
  match getenv "MQTT_TOPIC" true with
  | Raise e => Raise e
  | Ret topic =>
  match getenv "MQTT_CLIENT" true with
  | Raise e => Raise e
  | Ret client =>
      Ret (mkConfig (split_comma trig) vdelay vretries
                    broker vport topic client)
  end end end end end end end end end end.
End ConfigLoading.

(** ** The controller's state and one cycle of it *)

(** The two locals of [main] that live across iterations. *)
Record state : Type := mkState {
  absent_count : Z;
  notified : bool
}.

(** The state [main] enters its loop with. *)
Definition initial : state := mkState 0 false.

(** One cycle's observation: the [mac_addresses] list. *)
Definition observation : Type := list string.

(** [absent = sum([1 for s in config.triggers if s in mac_addresses]) == 0]. *)
Definition is_absent (config : PyAbsenceConfig) (mac_addresses : observation)
  : bool :=
  py_sum (map (fun _ => 1)
              (filter (fun s => py_in s mac_addresses) (triggers config)))
  =? 0.

(** The first [if] of the loop body: count the absence, or reset. *)
Definition update (config : PyAbsenceConfig) (st : state)
    (mac_addresses : observation) : state :=
  if is_absent config mac_addresses
  then mkState (absent_count st + 1) (notified st)
  else mkState 0 false.

(** The guard of the second [if]:
    [absent_count > config.retries and not notified]. *)
Definition should_notify (config : PyAbsenceConfig) (st : state) : bool :=
  (absent_count st >? retries config) && negb (notified st).

(** The second [if]: the new state and whether [mq.notify] is called. *)
Definition decide (config : PyAbsenceConfig) (st : state) : state * bool :=
  if should_notify config st
  then (mkState (absent_count st) true, true)
  else (st, false).

(** The state part of one iteration of the loop body. *)
Definition cycle (config : PyAbsenceConfig) (st : state)
    (mac_addresses : observation) : state * bool :=
  decide config (update config st mac_addresses).

(** Iterating the loop body over a sequence of observations: the final
    state and, per cycle, whether a notification was dispatched. *)
Fixpoint run (config : PyAbsenceConfig) (st : state)
    (obs : list observation) : state * list bool :=
  match obs with
  | [] => (st, [])
  | o :: rest =>
      let '(st1, fired) := cycle config st o in
      let '(st2, fires) := run config st1 rest in
      (st2, fired :: fires)
  end.

Definition state_after (config : PyAbsenceConfig) (obs : list observation)
  : state := fst (run config initial obs).

Definition fires_of (config : PyAbsenceConfig) (st : state)
    (obs : list observation) : list bool := snd (run config st obs).

(** How many notifications a run dispatches. *)
Definition notifications (fires : list bool) : nat :=
  length (filter (fun b => b) fires).

(** States the loop can be in at the top of an iteration. *)
Inductive reachable (config : PyAbsenceConfig) : state -> Prop :=
| reach_initial : reachable config initial
| reach_cycle st o :
    reachable config st -> reachable config (fst (cycle config st o)).

(** At least one configured trigger address is among the observed ones. *)
Definition trigger_observed (config : PyAbsenceConfig) (o : observation)
  : Prop := exists t, In t (triggers config) /\ In t o.

(** ** The outside world: scanner, MQTT client library, clock, log *)

(** The [logging.info] calls of the loop and of the notifier, one
    constructor per call site. *)
Inductive log_entry : Type :=
| LogConnected                      (* Connected to MQTT Broker! *)
| LogConnectFailed (rc : Z)         (* Failed to connect, return code rc *)
| LogSent (msg topic : string)      (* Sent msg to topic *)
| LogSendFailed (topic : string)    (* Failed to send message to topic *)
| LogNooneHere                      (* Noone is here :( *)
| LogSomeoneReturned                (* Someone returned! *)
| LogEveryoneMissing.               (* Everyone is missing ... *)

(** What an execution does that is visible from outside, in order: each
    library call with what it answered, and each log line. *)
Inductive event : Type :=
| EvLog (l : log_entry)
| EvWho (r : outcome (list device))
| EvConnect (host : string) (port : Z) (r : outcome unit)
| EvLoopStart (r : outcome unit)
| EvPublish (topic msg : string) (r : outcome (Z * Z))
| EvLoopStop (r : outcome unit)
| EvSleep (secs : Z) (r : outcome unit).

(** The libraries the program calls, as operations on a world [W].  Each
    call returns or raises.  [client_publish] returns the pair paho calls
    [MQTTMessageInfo], whose item 0 is the status.

    The client object also holds the connection callback:
    [client_set_on_connect] is the assignment to its [on_connect]
    attribute, and [client_network_loop] tells what the client's network
    thread has done with it since it was last looked at: the connection
    results it has passed to the callback, in order. *)
Class Platform (W : Type) : Type := {
  who : W -> outcome (list device) * W;
  client_set_on_connect : W -> W;
  client_connect : string -> Z -> W -> outcome unit * W;
  client_loop_start : W -> outcome unit * W;
  client_network_loop : W -> list Z * W;
  client_publish : string -> string -> W -> outcome (Z * Z) * W;
  client_loop_stop : W -> outcome unit * W;
  sleep : Z -> W -> outcome unit * W
}.

(** Computations over the world: the outcome, the new world and the
    events emitted.  A raised exception stops the computation. *)
Definition M (W A : Type) : Type := W -> outcome A * W * list event.

Definition ret {W A : Type} (a : A) : M W A := fun w => (Ret a, w, []).

Definition bind {W A B : Type} (m : M W A) (k : A -> M W B) : M W B :=
  fun w =>
    match m w with
    | (Ret a, w1, t1) => let '(r, w2, t2) := k a w1 in (r, w2, t1 ++ t2)
    | (Raise e, w1, t1) => (Raise e, w1, t1)
    end.

Notation "x <- m ;; k" := (bind m (fun x => k))
  (at level 61, m at next level, right associativity).
Notation "m ;; k" := (bind m (fun _ => k))
  (at level 61, right associativity).

(** A pure step that may raise, inside [M]. *)
Definition lift {W A : Type} (r : outcome A) : M W A := fun w => (r, w, []).

(** A library call, recorded with its answer. *)
Definition call {W A : Type} (op : W -> outcome A * W)
    (ev : outcome A -> event) : M W A :=
  fun w => let '(r, w') := op w in (r, w', [ev r]).

(** [logging.info(...)]. *)
Definition logging_info {W : Type} (l : log_entry) : M W unit :=
  fun w => (Ret tt, w, [EvLog l]).

(** An assignment to an attribute of a library object. *)
Definition store {W : Type} (f : W -> W) : M W unit :=
  fun w => (Ret tt, f w, []).

(** The line [on_connect] logs for a connection result. *)
Definition connection_line (rc : Z) : event :=
  EvLog (if rc =? 0 then LogConnected else LogConnectFailed rc).

Definition outcome_of {W A : Type} (x : outcome A * W * list event)
  : outcome A := fst (fst x).
Definition world_of {W A : Type} (x : outcome A * W * list event)
  : W := snd (fst x).
Definition trace_of {W A : Type} (x : outcome A * W * list event)
  : list event := snd x.

Definition is_publish (ev : event) : bool :=
  match ev with EvPublish _ _ _ => true | _ => false end.

Definition is_send_failed (ev : event) : bool :=
  match ev with EvLog (LogSendFailed _) => true | _ => false end.

(** The number of [publish] calls in a trace. *)
Definition publish_attempts (t : list event) : nat :=
  List.length (filter is_publish t).

(** How many iterations the [while attempts < 5] loop can still make. *)
Definition attempts_left (attempts : Z) : nat := Z.to_nat (5 - attempts).
Arguments attempts_left : simpl never.

(** ** The notifier *)

Module MqttClient.

(** The attributes set by [MqttClient.__init__]. *)
Record t : Type := mk {
  mqqtBroker : string;
  mqqtPort : Z;
  mqttClient : string
}.

Section Methods.
Context {W : Type} `{Platform W}.

(** [on_connect(client, userdata, flags, rc)]: the library's network
    loop calls it with the connection result. *)
Definition on_connect (rc : Z) : M W unit :=
  if rc =? 0 then logging_info LogConnected
  else logging_info (LogConnectFailed rc).

(** [__connect__]: store [on_connect] in the client as its connection
    callback, then [connect(host, port)]. *)
Definition __connect__ (self : t) : M W unit :=
  store client_set_on_connect ;;
  call (client_connect (mqqtBroker self) (mqqtPort self))
       (EvConnect (mqqtBroker self) (mqqtPort self)).

(** The network thread's side of the callback: it runs the stored
    [on_connect] on each connection result, in order. *)
Fixpoint run_on_connect (rcs : list Z) : M W unit :=
  match rcs with
  | [] => ret tt
  | rc :: rest => on_connect rc ;; run_on_connect rest
  end.

(** What the network thread has run by the time the calling thread looks:
    the thread lives from [loop_start] to [loop_stop], and its lines are
    merged into the trace at those two points. *)
Definition network_loop_callbacks : M W unit :=
  fun w => let '(rcs, w') := client_network_loop w in run_on_connect rcs w'.

(** The [while attempts < 5] loop of [__publish__]. *)
Equations? publish_while (topic msg : string) (attempts : Z) : M W unit
  by wf (attempts_left attempts) lt :=
  publish_while topic msg attempts with inspect (attempts <? 5) := {
    | exist _ true Hlt =>
        result <- call (client_publish topic msg) (EvPublish topic msg) ;;
        let status := fst result in
        if status =? 0
        then logging_info (LogSent msg topic)
        else logging_info (LogSendFailed topic) ;;
             publish_while topic msg (attempts + 1)
    | exist _ false Hge => ret tt }.
Proof. apply Z.ltb_lt in Hlt. unfold attempts_left. lia. Qed.

(** [__publish__(topic, msg)]. *)
Definition __publish__ (self : t) (topic msg : string) : M W unit :=
  publish_while topic msg 0.

(** [notify(topic, msg)]: connect, start the network thread, publish,
    stop the thread; what the thread did with the callback meanwhile
    shows after it is started and after it is stopped. *)
Definition notify (self : t) (topic msg : string) : M W unit :=
  __connect__ self ;;
  call client_loop_start EvLoopStart ;;
  network_loop_callbacks ;;
  __publish__ self topic msg ;;
  call client_loop_stop EvLoopStop ;;
  network_loop_callbacks.
End Methods.
End MqttClient.

(** ** The main loop *)

Section Main.
Context {W : Type} `{Platform W}.

(** One iteration of [while True] in [main]. *)
Definition main_cycle (config : PyAbsenceConfig) (mq : MqttClient.t)
    (st : state) : M W state :=
  devices <- call who EvWho ;;
  mac_addresses <- lift (mac_addresses_of devices) ;;
  let absent := is_absent config mac_addresses in
  st1 <- (if absent
          then logging_info LogNooneHere ;;
               ret (mkState (absent_count st + 1) (notified st))
          else (if notified st
                then logging_info LogSomeoneReturned
                else ret tt) ;;
               ret (mkState 0 false)) ;;
  st2 <- (if (absent_count st1 >? retries config) && negb (notified st1)
          then logging_info LogEveryoneMissing ;;
               MqttClient.notify mq (mqttTopic config) "on" ;;
               ret (mkState (absent_count st1) true)
          else ret st1) ;;
  call (sleep (delay config)) (EvSleep (delay config)) ;;
  ret st2.

(** The first [n] iterations of the loop, from state [st]. *)
Fixpoint main_loop (config : PyAbsenceConfig) (mq : MqttClient.t)
    (n : nat) (st : state) : M W state :=
  match n with
  | O => ret st
  | S n' => st' <- main_cycle config mq st ;; main_loop config mq n' st'
  end.

(** The client [main] builds from the configuration. *)
Definition client_of (config : PyAbsenceConfig) : MqttClient.t :=
  MqttClient.mk (mqttBroker config) (mqttPort config) (mqttClient config).

(** [main] from the point where it enters the loop, for [n] iterations. *)
Definition main_from_loop (config : PyAbsenceConfig) (n : nat)
  : M W state :=
  main_loop config (client_of config) n initial.
End Main.

(** ** Reading a trace *)

Definition is_connect (ev : event) : bool :=
  match ev with EvConnect _ _ _ => true | _ => false end.

(** Events of the publish loop: publish calls and log lines. *)
Definition publish_or_log (ev : event) : Prop :=
  match ev with
  | EvPublish _ _ _ | EvLog _ => True
  | _ => False
  end.

(** How many times [notify] was entered: each call starts with exactly
    one [connect], and nothing else connects. *)
Definition dispatches (t : list event) : nat :=
  List.length (filter is_connect t).

(** The observations of the iterations that got past the scan. *)
Fixpoint observed (t : list event) : list observation :=
  match t with
  | [] => []
  | EvWho (Ret devices) :: rest =>
      match mac_addresses_of devices with
      | Ret macs => macs :: observed rest
      | Raise _ => observed rest
      end
  | _ :: rest => observed rest
  end.

Section Broker.
Context {W : Type} `{Platform W}.


(** The four ways one turn of the loop can go. *)
Variant turn (topic msg : string) (attempts : Z) (w : W) : Prop :=
| turn_done : 5 <= attempts -> turn topic msg attempts w
| turn_accepted mid w1 :
    attempts < 5 ->
    client_publish topic msg w = (Ret (0, mid), w1) ->
    turn topic msg attempts w
| turn_refused rc mid w1 :
    attempts < 5 -> rc <> 0 ->
    client_publish topic msg w = (Ret (rc, mid), w1) ->
    turn topic msg attempts w
| turn_raised e w1 :
    attempts < 5 ->
    client_publish topic msg w = (Raise e, w1) ->
    turn topic msg attempts w.
End Broker.

(** ** A scripted world

    Each call to the scanner, to [connect] and to [publish] takes the next
    scripted answer, and each look at the network thread the next list of
    connection results; when a script runs out, the scanner sees nobody,
    the broker accepts, and the thread has called nothing.  [sleep] raises
    [ValueError] on a negative length, as [time.sleep] does. *)
Record script : Type := mkWorld {
  scan_answers : list (outcome (list device));
  connect_answers : list (outcome unit);
  publish_answers : list (outcome (Z * Z));
  callback_answers : list (list Z)
}.

(** A world in which the network thread never gets to call back. *)
Definition mkScript (scans : list (outcome (list device)))
    (connects : list (outcome unit)) (publishes : list (outcome (Z * Z)))
  : script := mkWorld scans connects publishes [].

#[export] Instance scripted : Platform script := {
  who s :=
    match scan_answers s with
    | [] => (Ret [], s)
    | a :: rest =>
        (a, mkWorld rest (connect_answers s) (publish_answers s)
                    (callback_answers s))
    end;
  client_set_on_connect s := s;
  client_connect _ _ s :=
    match connect_answers s with
    | [] => (Ret tt, s)
    | a :: rest =>
        (a, mkWorld (scan_answers s) rest (publish_answers s)
                    (callback_answers s))
    end;
  client_loop_start s := (Ret tt, s);
  client_network_loop s :=
    match callback_answers s with
    | [] => ([], s)
    | rcs :: rest =>
        (rcs, mkWorld (scan_answers s) (connect_answers s)
                      (publish_answers s) rest)
    end;
  client_publish _ _ s :=
    match publish_answers s with
    | [] => (Ret (0, 1), s)
    | a :: rest =>
        (a, mkWorld (scan_answers s) (connect_answers s) rest
                    (callback_answers s))
    end;
  client_loop_stop s := (Ret tt, s);
  sleep secs s :=
    if secs <? 0 then (Raise (PyExn "ValueError"), s) else (Ret tt, s)
}.

(** A device record as the scanner returns it. *)
Definition device_with_mac (mac : string) : device :=
  ["192.168.1.7"; "phone"; "vendor"; mac].

(** Worlds for the scripted platform: a broker that refuses the
    connection, a scanner that fails on the second scan, a broker that
    turns down five publishes (status 4, no connection), and one that
    accepts the third. *)
Definition broker_down : script :=
  mkScript [] [Raise (PyExn "ConnectionRefusedError")] [].

Definition scanner_down : script :=
  mkScript [Ret []; Raise (PyExn "OSError"); Ret []] [] [].


Definition broker_slow : script :=
  mkScript [] [] [Ret (4, 0); Ret (4, 0); Ret (0, 3)].

(** The scanner of the specification's scenario: nobody for three scans,
    then the tracked phone, then nobody again. *)
Definition scenario_world : script :=
  mkScript [Ret []; Ret []; Ret []; Ret [device_with_mac "AA:BB"]; Ret []]
           [] [].

(** The broker of the scenario answering the connection, accepted as soon
    as the thread is started; and a broker that turns the connection down
    with result 5 (not authorised) and then every publish with status 4
    (no connection). *)
Definition scenario_world_answering : script :=
  mkWorld [Ret []; Ret []; Ret []; Ret [device_with_mac "AA:BB"]; Ret []]
          [] [] [[0]].

Definition broker_unauthorised : script :=
  mkWorld [] [] (repeat (Ret (4, 0)) 5) [[5]].


(** The spec's measure for [absent_count]: how many cycles at the end of
    the sequence, the current one included, saw no trigger. *)
Fixpoint take_while {A : Type} (p : A -> bool) (l : list A) : list A :=
  match l with
  | [] => []
  | x :: rest => if p x then x :: take_while p rest else []
  end.

Definition trailing_absent (config : PyAbsenceConfig)
    (obs : list observation) : nat :=
  List.length (take_while (is_absent config) (rev obs)).

(** The number of absence episodes in a sequence: maximal contiguous
    runs of cycles without a trigger.  [prev] tells whether the cycle just
    before was absent, so that a run is counted once, at its start. *)
Fixpoint episodes_from (config : PyAbsenceConfig) (prev : bool)
    (obs : list observation) : nat :=
  match obs with
  | [] => O
  | o :: rest =>
      if is_absent config o
      then ((if prev then 0 else 1) + episodes_from config true rest)%nat
      else episodes_from config false rest
  end.

Definition episodes (config : PyAbsenceConfig) (obs : list observation)
  : nat := episodes_from config false obs.

(** ** A concrete installation

    One tracked phone, a one-minute period, and the threshold left open. *)
Definition home_config (threshold : Z) : PyAbsenceConfig :=
  mkConfig ["AA:BB"] 60 threshold "broker.lan" 1883 "home/away" "pyabsence".

(** Nobody on the network, and the tracked phone back on it. *)
Definition nobody : observation := [].
Definition phone_seen : observation := ["11:22"; "AA:BB"].

(** ** Further vocabulary for configurations and traces *)

(** The variables [PyAbsenceConfig.__init__] reads, in the order it reads
    them. *)
Definition required_variables : list string :=
  ["PYABS_TRIGGERS"; "PYABS_DELAY"; "PYABS_RETRIES"; "MQTT_BROKER";
   "MQTT_PORT"; "MQTT_TOPIC"; "MQTT_CLIENT"].

(** A variable that [getenv] treats as not set: absent, or set to the
    empty string. *)
Definition unset (environ : string -> option string) (name : string)
  : Prop := environ name = None \/ environ name = Some "".

(** [c in s] for a character and a string. *)
Fixpoint contains_char (c : ascii) (s : string) : bool :=
  match s with
  | EmptyString => false
  | String d rest => Ascii.eqb d c || contains_char c rest
  end.

(** [s.count(",")]. *)
Fixpoint count_commas (s : string) : nat :=
  match s with
  | EmptyString => O
  | String c rest =>
      ((if Ascii.eqb c ","%char then 1 else 0) + count_commas rest)%nat
  end.

(** The exception an event records, if the call raised. *)
Definition raised_by (ev : event) : option exn :=
  match ev with
  | EvWho (Raise e) | EvConnect _ _ (Raise e) | EvLoopStart (Raise e)
  | EvPublish _ _ (Raise e) | EvLoopStop (Raise e) | EvSleep _ (Raise e) =>
      Some e
  | _ => None
  end.

(** A call on the MQTT client. *)
Definition is_broker_call (ev : event) : bool :=
  match ev with
  | EvConnect _ _ _ | EvLoopStart _ | EvPublish _ _ _ | EvLoopStop _ => true
  | _ => false
  end.

(** The arguments the loop may pass to the libraries: the configured
    broker and port, the configured topic with the payload [on], and the
    configured delay. *)
Definition uses_configuration (config : PyAbsenceConfig) (ev : event)
  : Prop :=
  match ev with
  | EvConnect host port _ =>
      host = mqttBroker config /\ port = mqttPort config
  | EvPublish topic msg _ => topic = mqttTopic config /\ msg = "on"
  | EvSleep secs _ => secs = delay config
  | _ => True
  end.

(** A publish that returned a status other than 0, one that returned 0,
    and the log line of a successful send. *)
Definition is_refused_publish (ev : event) : bool :=
  match ev with
  | EvPublish _ _ (Ret (rc, _)) => negb (rc =? 0)
  | _ => false
  end.

Definition is_accepted_publish (ev : event) : bool :=
  match ev with
  | EvPublish _ _ (Ret (rc, _)) => rc =? 0
  | _ => false
  end.

Definition is_sent (ev : event) : bool :=
  match ev with EvLog (LogSent _ _) => true | _ => false end.


(** No call recorded in the trace raised. *)
Definition clean (t : list event) : Prop :=
  Forall (fun ev => raised_by ev = None) t.

(** A run in which a raised call, if there is one, is the last event and
    decides the outcome. *)
Definition propagates {W A : Type} (x : outcome A * W * list event)
  : Prop :=
  clean (trace_of x)
  \/ exists before ev e,
       trace_of x = before ++ [ev] /\ clean before
       /\ raised_by ev = Some e /\ outcome_of x = Raise e.

(** A scanner answer with a record that has no field 3, and the world of
    the scenario with a rejecting broker in front of a third scan. *)
Definition short_record_world : script :=
  mkScript [Ret [device_with_mac "AA:BB"; ["192.168.1.9"; "tv"]]; Ret []]
           [] [].

Section NotifyRuns.
Context {W : Type} `{Platform W}.

(** The four ways [notify] can go: [connect] raises; [loop_start] raises;
    a publish raises; or these all return and [loop_stop] decides. *)
Variant notify_run (self : MqttClient.t) (topic msg : string) (w : W)
  : Prop :=
| run_connect_raised e w1 :
    MqttClient.notify self topic msg w
    = (Raise e, w1,
       [EvConnect (MqttClient.mqqtBroker self) (MqttClient.mqqtPort self)
                  (Raise e)]) ->
    notify_run self topic msg w
| run_loop_start_raised e w1 :
    MqttClient.notify self topic msg w
    = (Raise e, w1,
       [EvConnect (MqttClient.mqqtBroker self) (MqttClient.mqqtPort self)
                  (Ret tt);
        EvLoopStart (Raise e)]) ->
    notify_run self topic msg w
| run_publish_raised e w1 rcs before :
    Forall publish_or_log before -> clean before ->
    (publish_attempts before < 5)%nat ->
    MqttClient.notify self topic msg w
    = (Raise e, w1,
       EvConnect (MqttClient.mqqtBroker self) (MqttClient.mqqtPort self)
                 (Ret tt)
       :: EvLoopStart (Ret tt)
       :: map connection_line rcs
          ++ before ++ [EvPublish topic msg (Raise e)]) ->
    notify_run self topic msg w
| run_stopped r w1 rcs t late :
    Forall publish_or_log t -> clean t ->
    (publish_attempts t <= 5)%nat ->
    (forall e, r = Raise e -> late = []) ->
    MqttClient.notify self topic msg w
    = (r, w1,
       EvConnect (MqttClient.mqqtBroker self) (MqttClient.mqqtPort self)
                 (Ret tt)
       :: EvLoopStart (Ret tt)
       :: map connection_line rcs
          ++ t ++ EvLoopStop r :: map connection_line late) ->
    notify_run self topic msg w.
End NotifyRuns.

(** ** A concrete environment

    Bindings as a list, and [int] on plain decimal text: an optional minus
    sign followed by digits; anything else raises [ValueError].  (Python's
    [int] also accepts blanks, a plus sign and underscores, which the
    examples do not use.) *)
Fixpoint lookup (bindings : list (string * string)) (name : string)
  : option string :=
  match bindings with
  | [] => None
  | (key, value) :: rest =>
      if String.eqb key name then Some value else lookup rest name
  end.

Fixpoint digits_value (acc : Z) (s : string) : option Z :=
  match s with
  | EmptyString => Some acc
  | String c rest =>
      let n := Z.of_nat (nat_of_ascii c) in
      if (48 <=? n) && (n <=? 57)
      then digits_value (10 * acc + (n - 48)) rest
      else None
  end.

Definition decimal_int (s : string) : outcome Z :=
  let unsigned (digits : string) : option Z :=
    match digits with
    | EmptyString => None
    | _ => digits_value 0 digits
    end in
  match s with
  | String "-"%char digits =>
      match unsigned digits with
      | Some v => Ret (- v)
      | None => Raise (PyExn "ValueError")
      end
  | _ =>
      match unsigned s with
      | Some v => Ret v
      | None => Raise (PyExn "ValueError")
      end
  end.

(** The environment of an installation with two tracked phones; the text
    of [PYABS_RETRIES] is left open. *)
Definition home_environ (retries_text : string) : string -> option string :=
  lookup [("PYABS_TRIGGERS", "AA:BB,CC:DD"); ("PYABS_DELAY", "60");
          ("PYABS_RETRIES", retries_text); ("MQTT_BROKER", "broker.lan");
          ("MQTT_PORT", "1883"); ("MQTT_TOPIC", "home/away");
          ("MQTT_CLIENT", "pyabsence")].

(** The same installation without a topic. *)
Definition no_topic_environ : string -> option string :=
  lookup [("PYABS_TRIGGERS", "AA:BB,CC:DD"); ("PYABS_DELAY", "60");
          ("PYABS_RETRIES", "2"); ("MQTT_BROKER", "broker.lan");
          ("MQTT_PORT", "1883"); ("MQTT_CLIENT", "pyabsence")].

(** * Properties of the controller *)

(** ** Membership and the absence verdict *)

Lemma py_sum_ones {A : Type} (l : list A) :
  py_sum (map (fun _ => 1) l) = Z.of_nat (List.length l).
Proof.
  unfold py_sum.
  enough (Hacc : forall acc,
             fold_left Z.add (map (fun _ : A => 1) l) acc
             = acc + Z.of_nat (List.length l)).
  { rewrite Hacc. lia. }
  induction l as [|x l IH]; intros acc.
  - simpl. lia.
  - cbn [map fold_left List.length]. rewrite IH. lia.
Qed.

Lemma py_in_In (s : string) (xs : list string) :
  py_in s xs = true <-> In s xs.
Proof.
  unfold py_in. rewrite existsb_exists. split.
  - intros [x [Hin Heq]]. apply String.eqb_eq in Heq. now subst.
  - intros Hin. exists s. split; [assumption | apply String.eqb_refl].
Qed.

Lemma is_absent_iff (config : PyAbsenceConfig) (o : observation) :
  is_absent config o = true <-> ~ trigger_observed config o.
Proof.
  unfold is_absent, trigger_observed. rewrite py_sum_ones, Z.eqb_eq.
  split.
  - intros Hlen [t [Ht Ho]].
    assert (Hin : In t (filter (fun s => py_in s o) (triggers config))).
    { apply filter_In. split; [assumption | now apply py_in_In]. }
    destruct (filter (fun s => py_in s o) (triggers config));
      [contradiction | simpl in Hlen; lia].
  - intros Hno.
    destruct (filter (fun s => py_in s o) (triggers config)) as [|t l] eqn:E.
    + reflexivity.
    + exfalso. apply Hno. exists t.
      assert (Hin : In t (filter (fun s => py_in s o) (triggers config))).
      { rewrite E. now left. }
      apply filter_In in Hin. destruct Hin as [Ht Ho].
      split; [assumption | now apply py_in_In].
Qed.

Lemma is_present_iff (config : PyAbsenceConfig) (o : observation) :
  is_absent config o = false <-> trigger_observed config o.
Proof.
  split.
  - intros Hf. destruct (filter (fun s => py_in s o) (triggers config))
      as [|t l] eqn:E.
    + unfold is_absent in Hf. rewrite E in Hf. discriminate.
    + exists t.
      assert (Hin : In t (filter (fun s => py_in s o) (triggers config))).
      { rewrite E. now left. }
      apply filter_In in Hin. destruct Hin as [Ht Ho].
      split; [assumption | now apply py_in_In].
  - intros Hobs. destruct (is_absent config o) eqn:E; [|reflexivity].
    apply is_absent_iff in E. contradiction.
Qed.

(** ** Unfolding one cycle *)

Lemma cycle_absent (config : PyAbsenceConfig) (st : state) (o : observation) :
  is_absent config o = true ->
  cycle config st o
  = decide config (mkState (absent_count st + 1) (notified st)).
Proof. intros Ha. unfold cycle, update. now rewrite Ha. Qed.

Lemma cycle_present (config : PyAbsenceConfig) (st : state) (o : observation) :
  is_absent config o = false ->
  cycle config st o = decide config (mkState 0 false).
Proof. intros Ha. unfold cycle, update. now rewrite Ha. Qed.

Lemma decide_count (config : PyAbsenceConfig) (st : state) :
  absent_count (fst (decide config st)) = absent_count st.
Proof. unfold decide. now destruct (should_notify config st). Qed.

Lemma cycle_count (config : PyAbsenceConfig) (st : state) (o : observation) :
  absent_count (fst (cycle config st o))
  = absent_count (update config st o).
Proof. unfold cycle. apply decide_count. Qed.

Lemma run_app (config : PyAbsenceConfig) (st : state)
    (a b : list observation) :
  run config st (a ++ b)
  = (fst (run config (fst (run config st a)) b),
     snd (run config st a) ++ snd (run config (fst (run config st a)) b)).
Proof.
  revert st. induction a as [|o a IH]; intros st.
  - simpl. now destruct (run config st b).
  - cbn [app run]. destruct (cycle config st o) as [st1 fired].
    rewrite IH. destruct (run config st1 a) as [st2 fires]. reflexivity.
Qed.

Lemma state_after_snoc (config : PyAbsenceConfig)
    (obs : list observation) (o : observation) :
  state_after config (obs ++ [o])
  = fst (cycle config (state_after config obs) o).
Proof.
  unfold state_after. rewrite run_app. cbn [fst run].
  now destruct (cycle config (fst (run config initial obs)) o).
Qed.

Lemma reachable_state_after (config : PyAbsenceConfig)
    (obs : list observation) : reachable config (state_after config obs).
Proof.
  induction obs as [|o obs IH] using rev_ind.
  - apply reach_initial.
  - rewrite state_after_snoc. now apply reach_cycle.
Qed.

Lemma reachable_inv (config : PyAbsenceConfig) (st : state) :
  reachable config st -> exists obs, st = state_after config obs.
Proof.
  induction 1 as [|st o _ [obs ->]].
  - now exists [].
  - exists (obs ++ [o]). now rewrite state_after_snoc.
Qed.

(** ** The counter *)

Lemma trailing_absent_snoc (config : PyAbsenceConfig)
    (obs : list observation) (o : observation) :
  trailing_absent config (obs ++ [o])
  = if is_absent config o then S (trailing_absent config obs) else O.
Proof.
  unfold trailing_absent. rewrite rev_app_distr. cbn [rev app take_while].
  now destruct (is_absent config o).
Qed.

(** [trailing_absent] is the length of the longest suffix without a
    trigger: the suffix has none, and it cannot be extended to the left. *)
Lemma trailing_absent_maximal (config : PyAbsenceConfig)
    (obs : list observation) :
  exists pre suf,
    obs = pre ++ suf /\
    List.length suf = trailing_absent config obs /\
    Forall (fun o => ~ trigger_observed config o) suf /\
    (pre = [] \/
     exists pre' o, pre = pre' ++ [o] /\ trigger_observed config o).
Proof.
  induction obs as [|o obs IH] using rev_ind.
  - exists [], []. repeat split; auto.
  - rewrite trailing_absent_snoc.
    destruct (is_absent config o) eqn:Ha.
    + destruct IH as [pre [suf [Hobs [Hlen [Hall Hmax]]]]].
      exists pre, (suf ++ [o]). repeat split.
      * rewrite Hobs. now rewrite app_assoc.
      * rewrite length_app. simpl. lia.
      * apply Forall_app. split; [assumption|].
        constructor; [now apply is_absent_iff | constructor].
      * assumption.
    + exists (obs ++ [o]), []. repeat split.
      * now rewrite app_nil_r.
      * constructor.
      * right. exists obs, o. split; [reflexivity | now apply is_present_iff].
Qed.

(** C1. After any finite sequence of observations, [absent_count] is the
    length of the maximal trailing run of cycles in which no configured
    trigger was observed: the last [trailing_absent] cycles saw none, and
    the cycle before them, if there is one, saw a trigger. *)
Theorem absent_count_is_trailing_run (config : PyAbsenceConfig)
    (obs : list observation) :
  absent_count (state_after config obs)
  = Z.of_nat (trailing_absent config obs)
  /\ exists pre suf,
       obs = pre ++ suf /\
       List.length suf = trailing_absent config obs /\
       Forall (fun o => ~ trigger_observed config o) suf /\
       (pre = [] \/
        exists pre' o, pre = pre' ++ [o] /\ trigger_observed config o).
Proof.
  split; [|apply trailing_absent_maximal].
  induction obs as [|o obs IH] using rev_ind.
  - reflexivity.
  - rewrite state_after_snoc, cycle_count, trailing_absent_snoc.
    unfold update. destruct (is_absent config o); cbn [absent_count].
    + rewrite IH. lia.
    + reflexivity.
Qed.

(** ** When a notification is dispatched *)

Lemma fires_of_cons (config : PyAbsenceConfig) (st : state)
    (o : observation) (rest : list observation) :
  fires_of config st (o :: rest)
  = snd (cycle config st o)
    :: fires_of config (fst (cycle config st o)) rest.
Proof.
  unfold fires_of. cbn [run]. destruct (cycle config st o) as [st1 fired].
  cbn [fst snd]. now destruct (run config st1 rest).
Qed.

Lemma fires_of_app (config : PyAbsenceConfig) (st : state)
    (a b : list observation) :
  fires_of config st (a ++ b)
  = fires_of config st a ++ fires_of config (fst (run config st a)) b.
Proof. unfold fires_of. now rewrite run_app. Qed.

Lemma notifications_cons (b : bool) (fires : list bool) :
  notifications (b :: fires)
  = ((if b then 1 else 0) + notifications fires)%nat.
Proof. unfold notifications. now destruct b. Qed.

Lemma notifications_app (f g : list bool) :
  notifications (f ++ g) = (notifications f + notifications g)%nat.
Proof. unfold notifications. now rewrite filter_app, length_app. Qed.

Lemma decide_fired (config : PyAbsenceConfig) (st : state) :
  snd (decide config st) = should_notify config st.
Proof. unfold decide. now destruct (should_notify config st). Qed.

Lemma decide_notified (config : PyAbsenceConfig) (st : state) :
  notified (fst (decide config st))
  = should_notify config st || notified st.
Proof. unfold decide. now destruct (should_notify config st). Qed.

Lemma cycle_fired (config : PyAbsenceConfig) (st : state) (o : observation) :
  snd (cycle config st o) = should_notify config (update config st o).
Proof. unfold cycle. apply decide_fired. Qed.

(** A cycle that dispatches leaves [notified] set. *)
Lemma fired_sets_notified (config : PyAbsenceConfig) (st : state)
    (o : observation) :
  snd (cycle config st o) = true ->
  notified (fst (cycle config st o)) = true.
Proof.
  unfold cycle. rewrite decide_fired, decide_notified.
  now intros ->.
Qed.

(** An absent cycle entered with [notified] set dispatches nothing and
    keeps the flag. *)
Lemma absent_cycle_when_notified (config : PyAbsenceConfig) (st : state)
    (o : observation) :
  notified st = true -> is_absent config o = true ->
  snd (cycle config st o) = false /\
  notified (fst (cycle config st o)) = true.
Proof.
  intros Hn Ha. rewrite cycle_absent by assumption.
  rewrite decide_fired, decide_notified. unfold should_notify.
  cbn [notified]. rewrite Hn, andb_false_r. now split.
Qed.

Lemma absent_run_when_notified (config : PyAbsenceConfig)
    (episode : list observation) (st : state) :
  notified st = true ->
  Forall (fun o => ~ trigger_observed config o) episode ->
  notifications (fires_of config st episode) = O.
Proof.
  revert st. induction episode as [|o ep IH]; intros st Hn Hall.
  - reflexivity.
  - inversion Hall as [|? ? Ho Hep]; subst.
    apply is_absent_iff in Ho.
    destruct (absent_cycle_when_notified config st o Hn Ho) as [Hf Hn'].
    rewrite fires_of_cons, notifications_cons, Hf. simpl.
    now apply IH.
Qed.

Lemma absent_run_at_most_once (config : PyAbsenceConfig)
    (episode : list observation) (st : state) :
  Forall (fun o => ~ trigger_observed config o) episode ->
  (notifications (fires_of config st episode) <= 1)%nat.
Proof.
  revert st. induction episode as [|o ep IH]; intros st Hall.
  - unfold fires_of, notifications. simpl. lia.
  - inversion Hall as [|? ? Ho Hep]; subst.
    rewrite fires_of_cons, notifications_cons.
    destruct (snd (cycle config st o)) eqn:Hf.
    + rewrite absent_run_when_notified;
        [lia | now apply fired_sets_notified | assumption].
    + simpl. now apply IH.
Qed.

(** With a non-negative threshold a cycle that observes a trigger never
    dispatches, and ends in the reset state. *)
Lemma present_cycle_nonneg (config : PyAbsenceConfig) (st : state)
    (o : observation) :
  0 <= retries config -> is_absent config o = false ->
  cycle config st o = (mkState 0 false, false).
Proof.
  intros Hr Ha. rewrite cycle_present by assumption.
  unfold decide, should_notify. cbn [absent_count notified].
  destruct (0 >? retries config) eqn:E; [|reflexivity].
  apply Z.gtb_lt in E. lia.
Qed.

(** Over a whole sequence, a non-negative threshold allows no more
    notifications than there are absence episodes. *)
Lemma notifications_le_episodes_from (config : PyAbsenceConfig)
    (obs : list observation) (st : state) (prev : bool) :
  0 <= retries config ->
  (notifications (fires_of config st obs)
   <= episodes_from config prev obs
      + (if prev && notified st then 0 else if prev then 1 else 0))%nat.
Proof.
  intros Hr. revert st prev. induction obs as [|o obs IH]; intros st prev.
  - unfold fires_of, notifications. simpl. lia.
  - rewrite fires_of_cons, notifications_cons. cbn [episodes_from].
    destruct (is_absent config o) eqn:Ha.
    + destruct (snd (cycle config st o)) eqn:Hf.
      * pose proof (fired_sets_notified config st o Hf) as Hn'.
        specialize (IH (fst (cycle config st o)) true).
        rewrite Hn' in IH. cbn [andb] in IH.
        assert (Hn : notified st = false).
        { rewrite cycle_absent, decide_fired in Hf by assumption.
          unfold should_notify in Hf. cbn [notified] in Hf.
          apply andb_true_iff in Hf. destruct Hf as [_ Hf].
          now apply negb_true_iff in Hf. }
        rewrite Hn, andb_false_r. destruct prev; lia.
      * specialize (IH (fst (cycle config st o)) true).
        assert (Hn : notified (fst (cycle config st o)) = notified st).
        { rewrite cycle_absent, decide_notified by assumption.
          rewrite cycle_absent, decide_fired in Hf by assumption.
          now rewrite Hf. }
        rewrite Hn in IH. cbn [andb] in IH.
        destruct prev, (notified st); cbn [andb] in *; lia.
    + rewrite present_cycle_nonneg by assumption. cbn [fst snd].
      specialize (IH (mkState 0 false) false). cbn [andb] in IH.
      destruct prev, (notified st); cbn [andb]; lia.
Qed.

Lemma notifications_le_episodes (config : PyAbsenceConfig)
    (obs : list observation) :
  0 <= retries config ->
  (notifications (fires_of config initial obs) <= episodes config obs)%nat.
Proof.
  intros Hr.
  pose proof (notifications_le_episodes_from config obs initial false Hr) as B.
  cbn [andb] in B. unfold episodes. lia.
Qed.

(** C2. With a non-negative [retries], on every cycle of every observation
    sequence a notification is dispatched exactly when [absent_count]
    after the cycle's update exceeds [retries] and [notified] was false on
    entry.  Consequently an absence episode gets at most one notification:
    no cycle that observes a trigger dispatches, any contiguous run of
    absent cycles dispatches at most once, and a whole sequence gets no
    more notifications than it has episodes. *)
Theorem notification_iff_threshold_and_not_notified
    (config : PyAbsenceConfig) (Hretries : 0 <= retries config) :
  (forall (pre : list observation) (o : observation),
      let st := state_after config pre in
      snd (cycle config st o) = true <->
      (absent_count (update config st o) > retries config /\
       notified st = false))
  /\ (forall (pre : list observation) (o : observation),
         trigger_observed config o ->
         snd (cycle config (state_after config pre) o) = false)
  /\ (forall (pre episode : list observation),
         Forall (fun o => ~ trigger_observed config o) episode ->
         (notifications (fires_of config (state_after config pre) episode)
          <= 1)%nat)
  /\ (forall obs : list observation,
         (notifications (fires_of config initial obs)
          <= episodes config obs)%nat).
Proof.
  split; [|split; [|split]].
  - intros pre o st. rewrite cycle_fired. unfold should_notify, update.
    destruct (is_absent config o) eqn:Ha; cbn [absent_count notified].
    + rewrite andb_true_iff, negb_true_iff, Z.gtb_lt. split.
      * intros [Hc Hn]. split; [lia | assumption].
      * intros [Hc Hn]. split; [lia | assumption].
    + split.
      * rewrite andb_true_iff, Z.gtb_lt. lia.
      * intros [Hc _]. lia.
  - intros pre o Ho. apply is_present_iff in Ho.
    now rewrite present_cycle_nonneg.
  - intros pre episode Hall. now apply absent_run_at_most_once.
  - intros obs. now apply notifications_le_episodes.
Qed.

(** ** The threshold *)

(** From a state whose flag says whether the count has passed the
    threshold, an absent cycle counts one more and dispatches exactly when
    the count was equal to [retries]. *)
Lemma absent_cycle_counting (config : PyAbsenceConfig) (c : Z)
    (o : observation) :
  is_absent config o = true ->
  cycle config (mkState c (c >? retries config)) o
  = (mkState (c + 1) (c + 1 >? retries config), c =? retries config).
Proof.
  intros Ha. rewrite cycle_absent by assumption.
  unfold decide, should_notify. cbn [absent_count notified].
  destruct (Z.eqb_spec c (retries config));
    destruct (Z.gtb_spec (c + 1) (retries config));
    destruct (Z.gtb_spec c (retries config)); cbn [andb negb];
    try reflexivity; lia.
Qed.

Lemma initial_counting (config : PyAbsenceConfig) :
  0 <= retries config ->
  initial = mkState 0 (0 >? retries config).
Proof.
  intros Hr. unfold initial. f_equal.
  destruct (0 >? retries config) eqn:E; [|reflexivity].
  apply Z.gtb_lt in E. lia.
Qed.

Lemma absent_run_fires (config : PyAbsenceConfig)
    (obs : list observation) (c : Z) (k : nat) :
  Forall (fun o => ~ trigger_observed config o) obs ->
  (k < List.length obs)%nat ->
  nth k (fires_of config (mkState c (c >? retries config)) obs) false
  = (c + Z.of_nat k =? retries config).
Proof.
  revert c k. induction obs as [|o obs IH]; intros c k Hall Hk.
  - simpl in Hk. lia.
  - inversion Hall as [|? ? Ho Hobs]; subst. apply is_absent_iff in Ho.
    rewrite fires_of_cons, absent_cycle_counting by assumption.
    cbn [fst snd]. destruct k as [|k].
    + cbn [nth]. now rewrite Z.add_0_r.
    + cbn [nth]. rewrite IH; [|assumption | simpl in Hk; lia].
      f_equal. lia.
Qed.

Lemma absent_run_count (config : PyAbsenceConfig)
    (obs : list observation) (c : Z) :
  Forall (fun o => ~ trigger_observed config o) obs ->
  notifications (fires_of config (mkState c (c >? retries config)) obs)
  = if (c <=? retries config)
       && (retries config <? c + Z.of_nat (List.length obs))
    then 1%nat else 0%nat.
Proof.
  revert c. induction obs as [|o obs IH]; intros c Hall.
  - cbn [List.length]. unfold fires_of, notifications. cbn.
    destruct (Z.leb_spec c (retries config));
      destruct (Z.ltb_spec (retries config) (c + 0)); cbn [andb];
      try reflexivity; lia.
  - inversion Hall as [|? ? Ho Hobs]; subst. apply is_absent_iff in Ho.
    rewrite fires_of_cons, absent_cycle_counting by assumption.
    cbn [fst snd]. rewrite notifications_cons, IH by assumption.
    cbn [List.length]. rewrite Nat2Z.inj_succ.
    destruct (Z.eqb_spec c (retries config));
      destruct (Z.leb_spec c (retries config));
      destruct (Z.leb_spec (c + 1) (retries config));
      destruct (Z.ltb_spec (retries config)
                           (c + 1 + Z.of_nat (List.length obs)));
      destruct (Z.ltb_spec (retries config)
                           (c + Z.succ (Z.of_nat (List.length obs))));
      cbn [andb]; try reflexivity; lia.
Qed.

Lemma absent_run_state (config : PyAbsenceConfig)
    (obs : list observation) (c : Z) :
  Forall (fun o => ~ trigger_observed config o) obs ->
  fst (run config (mkState c (c >? retries config)) obs)
  = mkState (c + Z.of_nat (List.length obs))
            (c + Z.of_nat (List.length obs) >? retries config).
Proof.
  revert c. induction obs as [|o obs IH]; intros c Hall.
  - cbn. now rewrite Z.add_0_r.
  - inversion Hall as [|? ? Ho Hobs]; subst. apply is_absent_iff in Ho.
    cbn [run]. rewrite absent_cycle_counting by assumption.
    specialize (IH (c + 1) Hobs).
    destruct (run config (mkState (c + 1) (c + 1 >? retries config)) obs)
      as [st2 fires].
    cbn [fst] in *. rewrite IH. cbn [List.length].
    rewrite Nat2Z.inj_succ.
    replace (c + 1 + Z.of_nat (List.length obs))
      with (c + Z.succ (Z.of_nat (List.length obs))) by lia.
    reflexivity.
Qed.

(** C3. The comparison with [retries] is strict: in a run of absent cycles
    from the initial state, cycle number [k + 1] dispatches the
    notification exactly when [k + 1 = retries + 1]; with [retries = 0]
    one absent cycle is enough. *)
Theorem notification_on_retries_plus_one (config : PyAbsenceConfig)
    (Hretries : 0 <= retries config) :
  (forall (obs : list observation) (k : nat),
      Forall (fun o => ~ trigger_observed config o) obs ->
      (k < List.length obs)%nat ->
      nth k (fires_of config initial obs) false
      = (Z.of_nat (S k) =? retries config + 1))
  /\ (retries config = 0 ->
      forall o : observation,
        ~ trigger_observed config o ->
        fires_of config initial [o] = [true]).
Proof.
  split.
  - intros obs k Hall Hk. rewrite (initial_counting config Hretries).
    rewrite absent_run_fires by assumption.
    rewrite Nat2Z.inj_succ.
    destruct (Z.eqb_spec (0 + Z.of_nat k) (retries config));
      destruct (Z.eqb_spec (Z.succ (Z.of_nat k)) (retries config + 1));
      try reflexivity; lia.
  - intros H0 o Ho. apply is_absent_iff in Ho.
    rewrite fires_of_cons, (initial_counting config Hretries).
    rewrite absent_cycle_counting by assumption.
    cbn [fst snd]. rewrite H0. reflexivity.
Qed.

(** ** Reset on presence *)

Lemma update_present (config : PyAbsenceConfig) (st : state)
    (o : observation) :
  trigger_observed config o -> update config st o = mkState 0 false.
Proof.
  intros Ho. apply is_present_iff in Ho. unfold update. now rewrite Ho.
Qed.

(** C4. Whatever the prior state, a cycle that observes a trigger assigns
    [absent_count = 0] and [notified = False]; doing it again changes
    nothing.  The state at the end of such a cycle is a fixed point of the
    cycle, and with a non-negative [retries] it is the reset state. *)
Theorem presence_resets (config : PyAbsenceConfig) (st : state)
    (o : observation) (Hobs : trigger_observed config o) :
  update config st o = mkState 0 false
  /\ update config (update config st o) o = update config st o
  /\ fst (cycle config (fst (cycle config st o)) o)
     = fst (cycle config st o)
  /\ (0 <= retries config ->
      fst (cycle config st o) = mkState 0 false).
Proof.
  repeat split.
  - now apply update_present.
  - now rewrite !update_present.
  - unfold cycle. now rewrite !update_present.
  - intros Hr. apply is_present_iff in Hobs.
    now rewrite present_cycle_nonneg.
Qed.

(** ** Two episodes *)

(** C5. From the initial state with a non-negative [retries], [retries + 1]
    absent cycles, one cycle with a trigger, and [retries + 1] absent
    cycles again dispatch exactly two notifications. *)
Theorem two_episodes_two_notifications (config : PyAbsenceConfig)
    (Hretries : 0 <= retries config)
    (first second : list observation) (back : observation)
    (Hlen1 : Z.of_nat (List.length first) = retries config + 1)
    (Habs1 : Forall (fun o => ~ trigger_observed config o) first)
    (Hback : trigger_observed config back)
    (Hlen2 : Z.of_nat (List.length second) = retries config + 1)
    (Habs2 : Forall (fun o => ~ trigger_observed config o) second) :
  notifications (fires_of config initial (first ++ [back] ++ second))
  = 2%nat.
Proof.
  apply is_present_iff in Hback.
  change ([back] ++ second) with (back :: second).
  rewrite fires_of_app, notifications_app, fires_of_cons, notifications_cons.
  rewrite present_cycle_nonneg by assumption. cbn [fst snd].
  change (mkState 0 false) with initial.
  rewrite (initial_counting config Hretries).
  rewrite !absent_run_count by assumption.
  rewrite Hlen1, Hlen2.
  destruct (Z.leb_spec 0 (retries config)); [|lia].
  destruct (Z.ltb_spec (retries config) (0 + (retries config + 1))); [|lia].
  reflexivity.
Qed.

(** ** How the flag changes *)

(** C6. In every reachable state, a cycle turns [notified] from false to
    true only if [absent_count] after the update exceeds [retries], and
    from true to false only if it observes a trigger. *)
Theorem notified_transitions (config : PyAbsenceConfig) (st : state)
    (Hreach : reachable config st) (o : observation) :
  (notified st = false ->
   notified (fst (cycle config st o)) = true ->
   absent_count (update config st o) > retries config)
  /\ (notified st = true ->
      notified (fst (cycle config st o)) = false ->
      trigger_observed config o).
Proof.
  unfold cycle. rewrite decide_notified. unfold should_notify, update.
  split; intros Hn Hn'.
  - destruct (is_absent config o); cbn [absent_count notified] in *.
    + rewrite Hn in Hn'. cbn in Hn'. rewrite orb_false_r in Hn'.
      apply andb_true_iff in Hn'. destruct Hn' as [Hc _].
      apply Z.gtb_lt in Hc. lia.
    + rewrite orb_false_r in Hn'.
      apply andb_true_iff in Hn'. destruct Hn' as [Hc _].
      apply Z.gtb_lt in Hc. lia.
  - destruct (is_absent config o) eqn:Ha; cbn [absent_count notified] in *.
    + rewrite Hn, orb_true_r in Hn'. discriminate.
    + now apply is_present_iff.
Qed.

(** ** A negative threshold *)

Lemma cycle_negative_retries (config : PyAbsenceConfig) (o : observation) :
  retries config < 0 ->
  cycle config initial o
  = (mkState (if is_absent config o then 1 else 0) true, true).
Proof.
  intros Hneg. unfold cycle, update, decide, should_notify, initial.
  destruct (is_absent config o); cbn [absent_count notified negb];
    rewrite andb_true_r.
  - destruct (Z.gtb_spec (0 + 1) (retries config)); [reflexivity | lia].
  - destruct (Z.gtb_spec 0 (retries config)); [reflexivity | lia].
Qed.

Lemma present_cycle_negative_retries (config : PyAbsenceConfig)
    (st : state) (o : observation) :
  retries config < 0 -> trigger_observed config o ->
  cycle config st o = (mkState 0 true, true).
Proof.
  intros Hneg Ho. apply is_present_iff in Ho.
  rewrite cycle_present by assumption.
  unfold decide, should_notify. cbn [absent_count notified negb].
  rewrite andb_true_r.
  destruct (Z.gtb_spec 0 (retries config)); [reflexivity | lia].
Qed.

Lemma episodes_from_present (config : PyAbsenceConfig) (o : observation)
    (n : nat) (prev : bool) :
  trigger_observed config o ->
  episodes_from config prev (repeat o n) = O.
Proof.
  intros Ho. apply is_present_iff in Ho. revert prev.
  induction n as [|n IH]; intros prev; [reflexivity|].
  cbn [repeat episodes_from]. rewrite Ho. apply IH.
Qed.

Lemma presence_run_negative_retries (config : PyAbsenceConfig)
    (o : observation) (n : nat) (st : state) :
  retries config < 0 -> trigger_observed config o ->
  notifications (fires_of config st (repeat o n)) = n.
Proof.
  intros Hneg Ho. revert st. induction n as [|n IH]; intros st.
  - reflexivity.
  - cbn [repeat]. rewrite fires_of_cons, notifications_cons.
    rewrite present_cycle_negative_retries by assumption.
    cbn [fst snd]. rewrite IH. reflexivity.
Qed.

Lemma init_keeps_retries (environ : string -> option string)
    (py_int : string -> outcome Z) (config : PyAbsenceConfig) :
  PyAbsenceConfig_init environ py_int = Ret config ->
  exists s, getenv environ "PYABS_RETRIES" true = Ret s
            /\ py_int s = Ret (retries config).
Proof.
  unfold PyAbsenceConfig_init. intros Hinit.
  repeat match type of Hinit with
         | match ?x with Ret _ => _ | Raise _ => _ end = _ =>
             let E := fresh "E" in destruct x eqn:E; [|discriminate]
         end.
  injection Hinit as <-. cbn [retries]. eauto.
Qed.

(** C10. Nothing checks the sign of [retries]: whatever integer [int]
    yields for [PYABS_RETRIES] becomes the threshold.  When it is negative,
    the very first cycle dispatches a notification even if a trigger is
    observed, because the reset count 0 already exceeds [retries]; cycles
    that observe a trigger then dispatch every time, so notifications are
    no longer bounded by the absence episodes. *)
Theorem negative_retries_notify_on_presence (config : PyAbsenceConfig)
    (Hneg : retries config < 0) :
  (forall o : observation, snd (cycle config initial o) = true)
  /\ (forall o : observation,
         trigger_observed config o ->
         absent_count (update config initial o) = 0
         /\ absent_count (update config initial o) > retries config
         /\ snd (cycle config initial o) = true)
  /\ (forall (o : observation) (n : nat),
         trigger_observed config o ->
         notifications (fires_of config initial (repeat o n)) = n
         /\ episodes config (repeat o n) = O)
  /\ (forall (environ : string -> option string)
             (py_int : string -> outcome Z),
         PyAbsenceConfig_init environ py_int = Ret config ->
         exists s, getenv environ "PYABS_RETRIES" true = Ret s
                   /\ py_int s = Ret (retries config)).
Proof.
  split; [|split; [|split]].
  - intros o. now rewrite cycle_negative_retries.
  - intros o Ho. rewrite update_present by assumption.
    cbn [absent_count]. repeat split; [lia|].
    now rewrite cycle_negative_retries.
  - intros o n Ho. split.
    + now apply presence_run_negative_retries.
    + now apply episodes_from_present.
  - intros environ py_int. apply init_keeps_retries.
Qed.

(** * Properties of the notifier *)

Section NotifierProperties.
Context {W : Type} `{Platform W}.

(** ** Running a sequence of two computations *)

Lemma bind_returns {A B : Type} (m : M W A) (k : A -> M W B) (w w1 : W)
    (a : A) (t1 : list event) :
  m w = (Ret a, w1, t1) ->
  bind m k w
  = (outcome_of (k a w1), world_of (k a w1), t1 ++ trace_of (k a w1)).
Proof.
  intros Hm. unfold bind. rewrite Hm.
  now destruct (k a w1) as [[r w2] t2].
Qed.

Lemma bind_raises {A B : Type} (m : M W A) (k : A -> M W B) (w w1 : W)
    (e : exn) (t1 : list event) :
  m w = (Raise e, w1, t1) -> bind m k w = (Raise e, w1, t1).
Proof. intros Hm. unfold bind. now rewrite Hm. Qed.

Lemma publish_attempts_app (t u : list event) :
  publish_attempts (t ++ u)
  = (publish_attempts t + publish_attempts u)%nat.
Proof. unfold publish_attempts. now rewrite filter_app, length_app. Qed.

(** ** The publish loop *)

(** One turn of [while attempts < 5]. *)
Lemma publish_while_step (topic msg : string) (attempts : Z) :
  MqttClient.publish_while topic msg attempts
  = if attempts <? 5
    then (result <- call (client_publish topic msg)
                         (EvPublish topic msg) ;;
          if fst result =? 0
          then logging_info (LogSent msg topic)
          else logging_info (LogSendFailed topic) ;;
               MqttClient.publish_while topic msg (attempts + 1))
    else ret tt.
Proof.
  rewrite MqttClient.publish_while_equation_1.
  destruct (inspect (attempts <? 5)) as [[|] Hb].
  - rewrite MqttClient.publish_while_clause_1_equation_1.
    now rewrite Hb.
  - rewrite MqttClient.publish_while_clause_1_equation_2.
    now rewrite Hb.
Qed.

(** The loop at a world where the next publish is accepted, is refused,
    or raises. *)
Lemma publish_while_accepted (topic msg : string) (attempts : Z)
    (w w1 : W) (mid : Z) :
  attempts < 5 ->
  client_publish topic msg w = (Ret (0, mid), w1) ->
  MqttClient.publish_while topic msg attempts w
  = (Ret tt, w1,
     [EvPublish topic msg (Ret (0, mid)); EvLog (LogSent msg topic)]).
Proof.
  intros Hlt Hp. rewrite publish_while_step.
  apply Z.ltb_lt in Hlt. rewrite Hlt.
  unfold bind, call. rewrite Hp. reflexivity.
Qed.

Lemma publish_while_refused (topic msg : string) (attempts : Z)
    (w w1 : W) (rc mid : Z) :
  attempts < 5 -> rc <> 0 ->
  client_publish topic msg w = (Ret (rc, mid), w1) ->
  MqttClient.publish_while topic msg attempts w
  = (outcome_of (MqttClient.publish_while topic msg (attempts + 1) w1),
     world_of (MqttClient.publish_while topic msg (attempts + 1) w1),
     EvPublish topic msg (Ret (rc, mid))
     :: EvLog (LogSendFailed topic)
     :: trace_of (MqttClient.publish_while topic msg (attempts + 1) w1)).
Proof.
  intros Hlt Hrc Hp. rewrite publish_while_step.
  apply Z.ltb_lt in Hlt. rewrite Hlt.
  unfold bind at 1. unfold call. rewrite Hp. cbn [fst].
  apply Z.eqb_neq in Hrc. rewrite Hrc.
  unfold bind, logging_info.
  now destruct (MqttClient.publish_while topic msg (attempts + 1) w1)
    as [[r w2] t2].
Qed.

Lemma publish_while_raised (topic msg : string) (attempts : Z)
    (w w1 : W) (e : exn) :
  attempts < 5 ->
  client_publish topic msg w = (Raise e, w1) ->
  MqttClient.publish_while topic msg attempts w
  = (Raise e, w1, [EvPublish topic msg (Raise e)]).
Proof.
  intros Hlt Hp. rewrite publish_while_step.
  apply Z.ltb_lt in Hlt. rewrite Hlt.
  unfold bind, call. now rewrite Hp.
Qed.

Lemma publish_while_done (topic msg : string) (attempts : Z) (w : W) :
  5 <= attempts ->
  MqttClient.publish_while topic msg attempts w = (Ret tt, w, []).
Proof.
  intros Hge. rewrite publish_while_step.
  destruct (Z.ltb_spec attempts 5); [lia | reflexivity].
Qed.

Lemma turn_cases (topic msg : string) (attempts : Z) (w : W) :
  turn topic msg attempts w.
Proof.
  destruct (Z.lt_ge_cases attempts 5) as [Hlt|Hge];
    [|now apply turn_done].
  destruct (client_publish topic msg w) as [[[rc mid]|e] w1] eqn:Hp.
  - destruct (Z.eq_dec rc 0) as [->|Hrc].
    + eapply turn_accepted; eauto.
    + eapply turn_refused; eauto.
  - eapply turn_raised; eauto.
Qed.

Lemma attempts_left_step (attempts : Z) :
  attempts < 5 ->
  attempts_left attempts = S (attempts_left (attempts + 1)).
Proof. intros Hlt. unfold attempts_left. lia. Qed.

Lemma attempts_left_done (attempts : Z) :
  5 <= attempts -> attempts_left attempts = O.
Proof. intros Hge. unfold attempts_left. lia. Qed.

(** The loop never publishes more often than it has turns left. *)
Lemma publish_while_attempts (topic msg : string) (n : nat) :
  forall (attempts : Z) (w : W),
    attempts_left attempts = n ->
    (publish_attempts
       (trace_of (MqttClient.publish_while topic msg attempts w))
     <= n)%nat.
Proof.
  induction n as [|n IH]; intros attempts w Hn;
    destruct (turn_cases topic msg attempts w)
      as [Hge | mid w1 Hlt Hp | rc mid w1 Hlt Hrc Hp | e w1 Hlt Hp];
    try (rewrite attempts_left_step in Hn by assumption; try discriminate).
  - rewrite publish_while_done by assumption. cbn. lia.
  - rewrite publish_while_done by assumption. cbn. lia.
  - rewrite (publish_while_accepted _ _ _ _ _ _ Hlt Hp). cbn. lia.
  - rewrite (publish_while_refused _ _ _ _ _ _ _ Hlt Hrc Hp).
    cbn [trace_of snd]. injection Hn as Hn.
    specialize (IH (attempts + 1) w1 Hn).
    unfold publish_attempts in *. cbn [filter is_publish List.length].
    lia.
  - rewrite (publish_while_raised _ _ _ _ _ _ Hlt Hp). cbn. lia.
Qed.


End NotifierProperties.

(** * Properties of the main loop *)

Section LoopProperties.
Context {W : Type} `{Platform W}.

(** ** What [notify] leaves in the trace *)

Lemma publish_while_events (topic msg : string) (n : nat) :
  forall (attempts : Z) (w : W),
    attempts_left attempts = n ->
    Forall publish_or_log
           (trace_of (MqttClient.publish_while topic msg attempts w)).
Proof.
  induction n as [|n IH]; intros attempts w Hn;
    destruct (turn_cases topic msg attempts w)
      as [Hge | mid w1 Hlt Hp | rc mid w1 Hlt Hrc Hp | e w1 Hlt Hp];
    try (rewrite attempts_left_step in Hn by assumption; try discriminate);
    try (rewrite publish_while_done by assumption; constructor).
  - rewrite (publish_while_accepted _ _ _ _ _ _ Hlt Hp).
    repeat constructor.
  - rewrite (publish_while_refused _ _ _ _ _ _ _ Hlt Hrc Hp).
    injection Hn as Hn. cbn [trace_of snd].
    repeat (constructor; [exact I|]). now apply IH.
  - rewrite (publish_while_raised _ _ _ _ _ _ Hlt Hp).
    repeat constructor.
Qed.

Lemma observed_app (t u : list event) :
  observed (t ++ u) = observed t ++ observed u.
Proof.
  induction t as [|ev t IH]; [reflexivity|].
  destruct ev as [l|[devices|e]| | | | |]; cbn [app observed]; try exact IH.
  destruct (mac_addresses_of devices); [|exact IH].
  now rewrite IH.
Qed.

Lemma dispatches_app (t u : list event) :
  dispatches (t ++ u) = (dispatches t + dispatches u)%nat.
Proof. unfold dispatches. now rewrite filter_app, length_app. Qed.

Lemma quiet_observed (t : list event) :
  Forall publish_or_log t -> observed t = [].
Proof.
  induction 1 as [|ev t Hev _ IH]; [reflexivity|].
  destruct ev; try contradiction; exact IH.
Qed.

Lemma quiet_dispatches (t : list event) :
  Forall publish_or_log t -> dispatches t = O.
Proof.
  induction 1 as [|ev t Hev _ IH]; [reflexivity|].
  destruct ev; try contradiction; exact IH.
Qed.

(** ** The connection callback *)

(** [on_connect] only writes a log line. *)
Lemma on_connect_logs (rc : Z) (w : W) :
  MqttClient.on_connect rc w = (Ret tt, w, [connection_line rc]).
Proof.
  unfold MqttClient.on_connect, connection_line. now destruct (rc =? 0).
Qed.

Lemma run_on_connect_logs (rcs : list Z) (w : W) :
  MqttClient.run_on_connect rcs w = (Ret tt, w, map connection_line rcs).
Proof.
  induction rcs as [|rc rcs IH]; [reflexivity|].
  cbn [MqttClient.run_on_connect map].
  rewrite (bind_returns _ _ _ _ _ _ (on_connect_logs rc w)).
  now rewrite IH.
Qed.

Lemma network_loop_callbacks_logs (w : W) :
  MqttClient.network_loop_callbacks w
  = (Ret tt, snd (client_network_loop w),
     map connection_line (fst (client_network_loop w))).
Proof.
  unfold MqttClient.network_loop_callbacks.
  destruct (client_network_loop w) as [rcs w1].
  now rewrite run_on_connect_logs.
Qed.

Lemma connection_lines_quiet (rcs : list Z) :
  Forall publish_or_log (map connection_line rcs).
Proof. induction rcs; constructor; [exact I | assumption]. Qed.

Lemma connection_lines_no_publish (rcs : list Z) :
  publish_attempts (map connection_line rcs) = O.
Proof. induction rcs as [|rc rcs IH]; [reflexivity | exact IH]. Qed.

(** ** [notify], call by call *)

(** [notify] is: connect, start the loop, publish, stop the loop; the
    first call that raises ends it. *)
Lemma notify_connect_raises (self : MqttClient.t) (topic msg : string)
    (w w1 : W) (e : exn) :
  client_connect (MqttClient.mqqtBroker self) (MqttClient.mqqtPort self)
                 (client_set_on_connect w)
  = (Raise e, w1) ->
  MqttClient.notify self topic msg w
  = (Raise e, w1,
     [EvConnect (MqttClient.mqqtBroker self) (MqttClient.mqqtPort self)
                (Raise e)]).
Proof.
  intros Hc. unfold MqttClient.notify, MqttClient.__connect__.
  unfold bind, store, call. now rewrite Hc.
Qed.

(** After the thread is started, the connection results it hands to the
    callback only add their lines; the run goes on from the world the
    library left. *)
Lemma notify_started (self : MqttClient.t) (topic msg : string)
    (w w1 w2 w3 : W) (rcs : list Z) :
  client_connect (MqttClient.mqqtBroker self) (MqttClient.mqqtPort self)
                 (client_set_on_connect w)
  = (Ret tt, w1) ->
  client_loop_start w1 = (Ret tt, w2) ->
  client_network_loop w2 = (rcs, w3) ->
  MqttClient.notify self topic msg w
  = (outcome_of ((MqttClient.__publish__ self topic msg ;;
                  call client_loop_stop EvLoopStop ;;
                  MqttClient.network_loop_callbacks) w3),
     world_of ((MqttClient.__publish__ self topic msg ;;
                call client_loop_stop EvLoopStop ;;
                MqttClient.network_loop_callbacks) w3),
     EvConnect (MqttClient.mqqtBroker self) (MqttClient.mqqtPort self)
               (Ret tt)
     :: EvLoopStart (Ret tt)
     :: map connection_line rcs
        ++ trace_of ((MqttClient.__publish__ self topic msg ;;
                      call client_loop_stop EvLoopStop ;;
                      MqttClient.network_loop_callbacks) w3)).
Proof.
  intros Hc Hs Hn. unfold MqttClient.notify, MqttClient.__connect__.
  unfold bind at 1. unfold bind at 1. unfold store, call at 1.
  rewrite Hc. unfold bind at 1. unfold call at 1. rewrite Hs.
  unfold bind at 1. unfold MqttClient.network_loop_callbacks at 1.
  rewrite Hn, run_on_connect_logs.
  match goal with
  | |- context [bind ?m ?k w3] => destruct (bind m k w3) as [[r w4] t]
  end.
  reflexivity.
Qed.

Lemma publish_while_raise_last (topic msg : string) (n : nat) :
  forall (attempts : Z) (w : W) (e : exn),
    attempts_left attempts = n ->
    outcome_of (MqttClient.publish_while topic msg attempts w) = Raise e ->
    exists before,
      trace_of (MqttClient.publish_while topic msg attempts w)
      = before ++ [EvPublish topic msg (Raise e)]
      /\ Forall publish_or_log before
      /\ Forall (fun ev => raised_by ev = None) before
      /\ (publish_attempts before < n)%nat.
Proof.
  induction n as [|n IH]; intros attempts w e Hn Hout;
    destruct (turn_cases topic msg attempts w)
      as [Hge | mid w1 Hlt Hp | rc mid w1 Hlt Hrc Hp | e1 w1 Hlt Hp];
    try (rewrite attempts_left_step in Hn by assumption; try discriminate);
    try (rewrite publish_while_done in Hout by assumption; discriminate).
  - rewrite (publish_while_accepted _ _ _ _ _ _ Hlt Hp) in Hout.
    discriminate.
  - rewrite (publish_while_refused _ _ _ _ _ _ _ Hlt Hrc Hp) in *.
    injection Hn as Hn. cbn [outcome_of trace_of fst snd] in *.
    destruct (IH (attempts + 1) w1 e Hn Hout)
      as [before [Htr [Hq [Hc Hlen]]]].
    exists (EvPublish topic msg (Ret (rc, mid))
            :: EvLog (LogSendFailed topic) :: before).
    rewrite Htr. repeat split.
    + repeat (constructor; [exact I|]). assumption.
    + repeat (constructor; [reflexivity|]). assumption.
    + unfold publish_attempts in *. cbn [filter is_publish List.length].
      lia.
  - rewrite (publish_while_raised _ _ _ _ _ _ Hlt Hp) in *.
    cbn [outcome_of trace_of fst snd] in *. injection Hout as ->.
    exists []. split; [reflexivity|]. split; [constructor|].
    split; [constructor|]. unfold publish_attempts. cbn. lia.
Qed.

Lemma publish_while_returned_clean (topic msg : string) (n : nat) :
  forall (attempts : Z) (w : W),
    attempts_left attempts = n ->
    outcome_of (MqttClient.publish_while topic msg attempts w) = Ret tt ->
    Forall (fun ev => raised_by ev = None)
           (trace_of (MqttClient.publish_while topic msg attempts w)).
Proof.
  induction n as [|n IH]; intros attempts w Hn Hout;
    destruct (turn_cases topic msg attempts w)
      as [Hge | mid w1 Hlt Hp | rc mid w1 Hlt Hrc Hp | e1 w1 Hlt Hp];
    try (rewrite attempts_left_step in Hn by assumption; try discriminate);
    try (rewrite publish_while_done by assumption; constructor).
  - rewrite (publish_while_accepted _ _ _ _ _ _ Hlt Hp).
    repeat constructor.
  - rewrite (publish_while_refused _ _ _ _ _ _ _ Hlt Hrc Hp) in *.
    injection Hn as Hn. cbn [outcome_of trace_of fst snd] in *.
    repeat (constructor; [reflexivity|]). now apply IH.
  - rewrite (publish_while_raised _ _ _ _ _ _ Hlt Hp) in Hout.
    discriminate.
Qed.

Lemma notify_cases (self : MqttClient.t) (topic msg : string) (w : W) :
  notify_run self topic msg w.
Proof.
  destruct (client_connect (MqttClient.mqqtBroker self)
              (MqttClient.mqqtPort self) (client_set_on_connect w))
    as [[[]|e] w1] eqn:Hc.
  2:{ eapply run_connect_raised.
      exact (notify_connect_raises self topic msg w w1 e Hc). }
  destruct (client_loop_start w1) as [[[]|e] w2] eqn:Hs.
  2:{ eapply run_loop_start_raised.
      unfold MqttClient.notify, MqttClient.__connect__.
      unfold bind, store, call. rewrite Hc, Hs. reflexivity. }
  destruct (client_network_loop w2) as [rcs w3] eqn:Hn.
  pose proof (notify_started self topic msg w w1 w2 w3 rcs Hc Hs Hn) as Heq.
  unfold MqttClient.__publish__ in Heq.
  pose proof (publish_while_events topic msg 5 0 w3 eq_refl) as Hq.
  pose proof (publish_while_attempts topic msg 5 0 w3 eq_refl) as Hle.
  pose proof (publish_while_raise_last topic msg 5 0 w3) as Hlast.
  pose proof (publish_while_returned_clean topic msg 5 0 w3 eq_refl)
    as Hclean.
  unfold bind, call, MqttClient.network_loop_callbacks in Heq.
  destruct (MqttClient.publish_while topic msg 0 w3) as [[[[]|e] w4] t].
  - cbn [outcome_of trace_of fst snd] in *. specialize (Hclean eq_refl).
    destruct (client_loop_stop w4) as [[[]|e] w5].
    + destruct (client_network_loop w5) as [late w6].
      rewrite run_on_connect_logs in Heq.
      cbn [outcome_of world_of trace_of fst snd app] in Heq.
      apply (run_stopped self topic msg w (Ret tt) w6 rcs t late);
        try assumption.
      discriminate.
    + cbn [outcome_of world_of trace_of fst snd app] in Heq.
      apply (run_stopped self topic msg w (Raise e) w5 rcs t []);
        try assumption.
      reflexivity.
  - cbn [outcome_of world_of trace_of fst snd] in *.
    destruct (Hlast e eq_refl eq_refl) as [before [-> [Hb [Hc' Hlt]]]].
    apply (run_publish_raised self topic msg w e w4 rcs before);
      assumption.
Qed.

Lemma dispatches_cons (ev : event) (t : list event) :
  dispatches (ev :: t)
  = ((if is_connect ev then 1 else 0) + dispatches t)%nat.
Proof. unfold dispatches. cbn [filter]. now destruct (is_connect ev). Qed.

Lemma publish_attempts_cons (ev : event) (t : list event) :
  publish_attempts (ev :: t)
  = ((if is_publish ev then 1 else 0) + publish_attempts t)%nat.
Proof.
  unfold publish_attempts. cbn [filter]. now destruct (is_publish ev).
Qed.

Lemma connection_lines_no_dispatch (rcs : list Z) :
  dispatches (map connection_line rcs) = O.
Proof. apply quiet_dispatches, connection_lines_quiet. Qed.

Lemma connection_lines_not_observed (rcs : list Z) :
  observed (map connection_line rcs) = [].
Proof. apply quiet_observed, connection_lines_quiet. Qed.

(** What every run of [notify] leaves in the trace: one [connect], first,
    and after it no scan, no further [connect] and at most 5 publishes. *)
Lemma notify_trace (self : MqttClient.t) (topic msg : string) (w : W) :
  exists (r : outcome unit) (rest : list event),
    trace_of (MqttClient.notify self topic msg w)
    = EvConnect (MqttClient.mqqtBroker self) (MqttClient.mqqtPort self) r
      :: rest
    /\ observed rest = []
    /\ dispatches rest = O
    /\ (publish_attempts rest <= 5)%nat.
Proof.
  destruct (notify_cases self topic msg w)
    as [e w1 -> | e w1 -> | e w1 rcs before Hq Hc Hlt ->
        | r w1 rcs t late Hq Hc Hle Hlate ->]; cbn [trace_of snd].
  - exists (Raise e), []. cbn. repeat split; lia.
  - exists (Ret tt), [EvLoopStart (Raise e)]. cbn. repeat split; lia.
  - eexists (Ret tt), _. split; [reflexivity|].
    cbn [observed].
    rewrite !observed_app, !dispatches_cons, !dispatches_app,
      !publish_attempts_cons, !publish_attempts_app.
    rewrite connection_lines_not_observed, connection_lines_no_dispatch,
      connection_lines_no_publish.
    rewrite (quiet_observed _ Hq), (quiet_dispatches _ Hq).
    cbn. repeat split; lia.
  - eexists (Ret tt), _. split; [reflexivity|].
    cbn [observed].
    rewrite !observed_app, !dispatches_cons, !dispatches_app,
      !publish_attempts_cons, !publish_attempts_app.
    cbn [observed].
    rewrite !dispatches_cons, !publish_attempts_cons.
    rewrite !connection_lines_not_observed, !connection_lines_no_dispatch,
      !connection_lines_no_publish.
    rewrite (quiet_observed _ Hq), (quiet_dispatches _ Hq).
    cbn. repeat split; lia.
Qed.

End LoopProperties.

Section CycleProperties.
Context {W : Type} `{Platform W}.

(** ** One iteration *)

(** A scan that raises ends the iteration on the spot. *)
Lemma main_cycle_scan_raises (config : PyAbsenceConfig)
    (mq : MqttClient.t) (st : state) (w w1 : W) (e : exn) :
  who w = (Raise e, w1) ->
  main_cycle config mq st w = (Raise e, w1, [EvWho (Raise e)]).
Proof.
  intros Hw. unfold main_cycle. unfold bind at 1. unfold call at 1.
  now rewrite Hw.
Qed.

(** An iteration whose scan returns well-formed records moves the
    state as [cycle] says if it completes, enters [notify] exactly when
    [cycle] says a notification is due, and publishes only then. *)
Lemma main_cycle_scanned (config : PyAbsenceConfig) (mq : MqttClient.t)
    (st : state) (w w1 : W) (devices : list device) (macs : observation) :
  who w = (Ret devices, w1) ->
  mac_addresses_of devices = Ret macs ->
  let t := trace_of (main_cycle config mq st w) in
  observed t = [macs]
  /\ dispatches t = (if snd (cycle config st macs) then 1%nat else 0%nat)
  /\ (publish_attempts t <= 5)%nat
  /\ (snd (cycle config st macs) = false -> publish_attempts t = O)
  /\ (forall st', outcome_of (main_cycle config mq st w) = Ret st' ->
                  st' = fst (cycle config st macs)).
Proof.
  intros Hw Hm.
  remember (main_cycle config mq st w) as x eqn:Hx.
  unfold main_cycle in Hx. unfold bind at 1 in Hx. unfold call at 1 in Hx.
  rewrite Hw in Hx.
  unfold bind at 1 in Hx. unfold lift at 1 in Hx. rewrite Hm in Hx.
  unfold cycle, decide, update, should_notify.
  pose proof (notify_trace mq (mqttTopic config) "on" w1)
    as [rc [rest [Htr [Hobs [Hdis Hpub]]]]].
  unfold bind, call, logging_info, ret in Hx.
  destruct (is_absent config macs); destruct (notified st);
    cbn [absent_count notified negb andb] in *;
    rewrite ?andb_false_r, ?andb_true_r in *;
    try match type of Hx with
    | context [?a >? ?b] => destruct (a >? b)
    end;
    try destruct (MqttClient.notify mq (mqttTopic config) "on" w1)
      as [[[[]|e] w2] t];
    try match type of Hx with
    | context [sleep ?d ?u] => destruct (sleep d u) as [[[]|e'] w3]
    end;
    subst x; cbn [outcome_of trace_of fst snd app] in *; subst.
  all: cbn [observed app]; rewrite ?Hm, ?observed_app, ?Hobs.
  all: unfold dispatches, publish_attempts in *.
  all: cbn [filter is_connect is_publish app List.length].
  all: rewrite ?filter_app, ?length_app, ?Hdis.
  all: cbn [filter is_connect is_publish app List.length observed fst snd].
  all: repeat split; try discriminate; try lia.
  all: try (intros st' [= <-]; reflexivity).
Qed.

(** An iteration that completes has scanned well-formed records. *)
Lemma main_cycle_completes (config : PyAbsenceConfig) (mq : MqttClient.t)
    (st st' : state) (w : W) :
  outcome_of (main_cycle config mq st w) = Ret st' ->
  exists devices w1 macs,
    who w = (Ret devices, w1) /\ mac_addresses_of devices = Ret macs.
Proof.
  unfold main_cycle. unfold bind at 1. unfold call at 1.
  destruct (who w) as [[devices|e] w1]; [|discriminate].
  unfold bind at 1. unfold lift at 1.
  destruct (mac_addresses_of devices) as [macs|e] eqn:Hm; [|discriminate].
  intros _. now exists devices, w1, macs.
Qed.

(** ** The loop *)

Lemma main_loop_scan_raises (config : PyAbsenceConfig)
    (mq : MqttClient.t) (n : nat) (st : state) (w w1 : W) (e : exn) :
  who w = (Raise e, w1) ->
  main_loop config mq (S n) st w = (Raise e, w1, [EvWho (Raise e)]).
Proof.
  intros Hw. cbn [main_loop]. apply bind_raises.
  now apply main_cycle_scan_raises.
Qed.

(** The loop refines the controller: after [n] completed iterations the
    state is the controller's run over the observations in the trace,
    and [notify] was entered once for every cycle that fires. *)
Lemma main_loop_refines (config : PyAbsenceConfig) (mq : MqttClient.t)
    (n : nat) :
  forall (st st' : state) (w : W),
    outcome_of (main_loop config mq n st w) = Ret st' ->
    let t := trace_of (main_loop config mq n st w) in
    List.length (observed t) = n
    /\ st' = fst (run config st (observed t))
    /\ dispatches t = notifications (fires_of config st (observed t)).
Proof.
  induction n as [|n IH]; intros st st' w Hout.
  - cbn in *. injection Hout as <-. now repeat split.
  - cbn [main_loop] in *.
    destruct (main_cycle config mq st w) as [[[st1|e] w1] t1] eqn:Hc.
    2:{ rewrite (bind_raises _ _ _ _ _ _ Hc) in Hout. discriminate. }
    rewrite (bind_returns _ _ _ _ _ _ Hc) in *.
    cbn [outcome_of trace_of fst snd] in *.
    assert (Hc1 : outcome_of (main_cycle config mq st w) = Ret st1)
      by now rewrite Hc.
    destruct (main_cycle_completes _ _ _ _ _ Hc1)
      as [devices [w0 [macs [Hw Hm]]]].
    destruct (main_cycle_scanned config mq st w w0 devices macs Hw Hm)
      as [Hobs [Hdis [_ [_ Hst]]]].
    rewrite Hc in Hobs, Hdis. cbn [trace_of snd] in Hobs, Hdis.
    specialize (Hst st1 Hc1). subst st1.
    destruct (IH _ _ _ Hout) as [Hlen [Hrun Hd]].
    rewrite observed_app, dispatches_app, Hobs, Hdis.
    cbn [app]. rewrite fires_of_cons, notifications_cons.
    cbn [List.length run]. rewrite Hlen.
    destruct (cycle config st macs) as [st1 fired] eqn:Hcy.
    cbn [fst snd] in *.
    destruct (run config st1 _) as [st2 fires] eqn:Hr.
    cbn [fst] in *. repeat split; [assumption|].
    rewrite Hd. reflexivity.
Qed.
End CycleProperties.

(** * Properties of error handling *)

Section ErrorHandling.
Context {W : Type} `{Platform W}.

Lemma main_cycle_notify_raises (config : PyAbsenceConfig)
    (mq : MqttClient.t) (st : state) (w w0 : W)
    (devices : list device) (macs : observation) (e : exn) :
  who w = (Ret devices, w0) ->
  mac_addresses_of devices = Ret macs ->
  snd (cycle config st macs) = true ->
  outcome_of (MqttClient.notify mq (mqttTopic config) "on" w0) = Raise e ->
  outcome_of (main_cycle config mq st w) = Raise e.
Proof.
  intros Hw Hm Hf Hn.
  unfold main_cycle. unfold bind at 1. unfold call at 1. rewrite Hw.
  unfold bind at 1. unfold lift at 1. rewrite Hm.
  rewrite cycle_fired in Hf. unfold should_notify, update in Hf.
  unfold bind, call, logging_info, ret.
  destruct (is_absent config macs); destruct (notified st);
    cbn [absent_count notified] in *; rewrite Hf;
    destruct (MqttClient.notify mq (mqttTopic config) "on" w0)
      as [[[[]|e'] w2] t];
    cbn [outcome_of fst] in *; congruence.
Qed.


Lemma connection_lines_clean (rcs : list Z) :
  clean (map connection_line rcs).
Proof. induction rcs; constructor; [reflexivity | assumption]. Qed.

Lemma notify_returns_iff_clean (self : MqttClient.t) (topic msg : string)
    (w : W) :
  outcome_of (MqttClient.notify self topic msg w) = Ret tt
  <-> clean (trace_of (MqttClient.notify self topic msg w)).
Proof.
  unfold clean.
  destruct (notify_cases self topic msg w)
    as [e w1 -> | e w1 -> | e w1 rcs before Hq Hc Hlt ->
        | r w1 rcs t late Hq Hc Hle Hlate ->];
    cbn [outcome_of trace_of fst snd].
  - split; [discriminate|]. intros Hcl.
    inversion Hcl as [|? ? Hev _]; subst. discriminate.
  - split; [discriminate|]. intros Hcl.
    inversion Hcl as [|? ? _ Hcl']; subst.
    inversion Hcl' as [|? ? Hev _]; subst. discriminate.
  - split; [discriminate|]. intros Hcl.
    inversion Hcl as [|? ? _ Hcl']; subst.
    inversion Hcl' as [|? ? _ Hcl'']; subst.
    apply Forall_app in Hcl''. destruct Hcl'' as [_ Hcl''].
    apply Forall_app in Hcl''. destruct Hcl'' as [_ Hcl''].
    inversion Hcl'' as [|? ? Hev _]; subst. discriminate.
  - split.
    + intros ->. repeat (constructor; [reflexivity|]).
      apply Forall_app. split; [apply connection_lines_clean|].
      apply Forall_app. split; [exact Hc|].
      constructor; [reflexivity | apply connection_lines_clean].
    + intros Hcl.
      inversion Hcl as [|? ? _ Hcl']; subst.
      inversion Hcl' as [|? ? _ Hcl'']; subst.
      apply Forall_app in Hcl''. destruct Hcl'' as [_ Hcl''].
      apply Forall_app in Hcl''. destruct Hcl'' as [_ Hcl''].
      inversion Hcl'' as [|? ? Hev _]; subst.
      destruct r as [[]|e]; [reflexivity | discriminate].
Qed.

(** C8, as the code has it.  [notify] returns normally exactly when every
    library call it makes in the run returns, whatever the connection
    result and the publish statuses: the connection results the library
    hands to [on_connect], failures included, only add log lines and the
    run goes on.  But [notify] catches nothing: when [connect] raises, so
    does [notify], and so does the loop on the cycle that dispatches. *)
Theorem notify_raises_only_with_the_library (self : MqttClient.t)
    (topic msg : string) (w : W) :
  (outcome_of (MqttClient.notify self topic msg w) = Ret tt
   <-> clean (trace_of (MqttClient.notify self topic msg w)))
  /\ (forall (w1 w2 w3 : W) (rcs : list Z),
         client_connect (MqttClient.mqqtBroker self)
                        (MqttClient.mqqtPort self)
                        (client_set_on_connect w) = (Ret tt, w1) ->
         client_loop_start w1 = (Ret tt, w2) ->
         client_network_loop w2 = (rcs, w3) ->
         MqttClient.notify self topic msg w
         = (outcome_of ((MqttClient.__publish__ self topic msg ;;
                         call client_loop_stop EvLoopStop ;;
                         MqttClient.network_loop_callbacks) w3),
            world_of ((MqttClient.__publish__ self topic msg ;;
                       call client_loop_stop EvLoopStop ;;
                       MqttClient.network_loop_callbacks) w3),
            EvConnect (MqttClient.mqqtBroker self)
                      (MqttClient.mqqtPort self) (Ret tt)
            :: EvLoopStart (Ret tt)
            :: map connection_line rcs
               ++ trace_of ((MqttClient.__publish__ self topic msg ;;
                             call client_loop_stop EvLoopStop ;;
                             MqttClient.network_loop_callbacks) w3)))
  /\ (forall (e : exn) (w1 : W),
         client_connect (MqttClient.mqqtBroker self)
                        (MqttClient.mqqtPort self)
                        (client_set_on_connect w) = (Raise e, w1) ->
         MqttClient.notify self topic msg w
         = (Raise e, w1,
            [EvConnect (MqttClient.mqqtBroker self)
                       (MqttClient.mqqtPort self) (Raise e)]))
  /\ (forall (config : PyAbsenceConfig) (st : state) (w0 : W)
             (devices : list device) (macs : observation)
             (e : exn) (w1 : W) (n : nat),
         who w0 = (Ret devices, w) ->
         mac_addresses_of devices = Ret macs ->
         snd (cycle config st macs) = true ->
         client_connect (MqttClient.mqqtBroker self)
                        (MqttClient.mqqtPort self)
                        (client_set_on_connect w) = (Raise e, w1) ->
         outcome_of (main_loop config self (S n) st w0) = Raise e).
Proof.
  split; [|split; [|split]].
  - apply notify_returns_iff_clean.
  - intros w1 w2 w3 rcs. apply notify_started.
  - intros e w1. apply notify_connect_raises.
  - intros config st w0 devices macs e w1 n Hw Hm Hf Hc.
    cbn [main_loop].
    assert (Hr : outcome_of (main_cycle config self st w0) = Raise e).
    { apply (main_cycle_notify_raises config self st w0 w devices macs e);
        try assumption.
      now rewrite (notify_connect_raises _ _ _ _ _ _ Hc). }
    destruct (main_cycle config self st w0) as [[r w2] t] eqn:Hcy.
    cbn [outcome_of fst] in Hr. subst r.
    now rewrite (bind_raises _ _ _ _ _ _ Hcy).
Qed.

(** C9, as the code has it.  A scan that raises is not caught: the
    exception leaves the iteration and the loop with nothing logged, no
    state update (so the cycle is not counted as absent) and no further
    cycle. *)
Theorem scan_failure_propagates (config : PyAbsenceConfig)
    (mq : MqttClient.t) (st : state) (w w1 : W) (e : exn)
    (Hscan : who w = (Raise e, w1)) :
  main_cycle config mq st w = (Raise e, w1, [EvWho (Raise e)])
  /\ forall n : nat,
       main_loop config mq (S n) st w = (Raise e, w1, [EvWho (Raise e)]).
Proof.
  split.
  - now apply main_cycle_scan_raises.
  - intros n. now apply main_loop_scan_raises.
Qed.
End ErrorHandling.

(** * Further properties: loading the configuration *)

Lemma getenv_required (environ : string -> option string)
    (name v : string) :
  getenv environ name true = Ret v <-> environ name = Some v /\ v <> "".
Proof.
  unfold getenv. destruct (environ name) as [s|].
  - destruct (String.eqb_spec s "") as [->|Hne]; cbn [andb].
    + split; [discriminate|]. intros [[= <-] Hv]. now elim Hv.
    + split.
      * intros [= <-]. now split.
      * intros [[= ->] _]. reflexivity.
  - cbn. split; [discriminate|]. intros [Hn _]. discriminate.
Qed.

Lemma getenv_raises (environ : string -> option string)
    (name : string) (required : bool) (e : exn) :
  getenv environ name required = Raise e ->
  required = true /\ e = PyExn "Exception" /\ unset environ name.
Proof.
  unfold getenv, unset. destruct (environ name) as [s|].
  - destruct (String.eqb_spec s "") as [->|Hne]; destruct required;
      cbn [andb]; try discriminate.
    intros [= <-]. auto.
  - destruct required; cbn; try discriminate. intros [= <-]. auto.
Qed.

(** X1. [getenv] with [required] set returns exactly the values of
    variables that are set to a non-empty string; a variable that is
    absent or empty makes it raise [Exception].  Without [required] it
    never raises and yields the empty string for an absent variable. *)
Theorem getenv_behaviour (environ : string -> option string)
    (name : string) :
  (forall v, getenv environ name true = Ret v
             <-> environ name = Some v /\ v <> "")
  /\ (unset environ name
      <-> getenv environ name true = Raise (PyExn "Exception"))
  /\ getenv environ name false
     = Ret (match environ name with Some v => v | None => "" end).
Proof.
  split; [|split].
  - intros v. apply getenv_required.
  - split.
    + unfold getenv. intros [-> | ->]; reflexivity.
    + intros Hr. now apply getenv_raises in Hr.
  - unfold getenv. now rewrite andb_false_r.
Qed.

Ltac step_init H :=
  repeat match type of H with
         | match ?x with Ret _ => _ | Raise _ => _ end = _ =>
             let E := fresh "E" in destruct x eqn:E; [|discriminate]
         end.

(** X2. [PyAbsenceConfig.__init__] returns a configuration exactly when
    all seven variables are set to non-empty strings and [int] accepts the
    delay, the retries and the port; the configuration holds the pieces of
    the trigger string, the three integers as [int] gave them, and the
    other strings as they are. *)
Theorem init_returns_iff (environ : string -> option string)
    (py_int : string -> outcome Z) (config : PyAbsenceConfig) :
  PyAbsenceConfig_init environ py_int = Ret config
  <-> exists trig sdelay sretries sport,
        (environ "PYABS_TRIGGERS" = Some trig /\ trig <> "")
        /\ (environ "PYABS_DELAY" = Some sdelay /\ sdelay <> "")
        /\ (environ "PYABS_RETRIES" = Some sretries /\ sretries <> "")
        /\ (environ "MQTT_BROKER" = Some (mqttBroker config)
            /\ mqttBroker config <> "")
        /\ (environ "MQTT_PORT" = Some sport /\ sport <> "")
        /\ (environ "MQTT_TOPIC" = Some (mqttTopic config)
            /\ mqttTopic config <> "")
        /\ (environ "MQTT_CLIENT" = Some (mqttClient config)
            /\ mqttClient config <> "")
        /\ triggers config = split_comma trig
        /\ py_int sdelay = Ret (delay config)
        /\ py_int sretries = Ret (retries config)
        /\ py_int sport = Ret (mqttPort config).
Proof.
  split.
  - unfold PyAbsenceConfig_init. intros Hinit. step_init Hinit.
    injection Hinit as <-. cbn.
    repeat match goal with
           | E : getenv _ _ true = Ret _ |- _ =>
               apply getenv_required in E
           end.
    do 4 eexists. repeat split; eauto; tauto.
  - intros [trig [sdelay [sretries [sport
      [Ht [Hd [Hr [Hb [Hp [Hto [Hc [Htr [Hid [Hir Hip]]]]]]]]]]]]]].
    apply getenv_required in Ht, Hd, Hr, Hb, Hp, Hto, Hc.
    unfold PyAbsenceConfig_init.
    rewrite Ht, Hd, Hid, Hr, Hir, Hb, Hp, Hip, Hto, Hc, <- Htr.
    now destruct config.
Qed.

(** X3. When [PyAbsenceConfig.__init__] raises, the exception is either
    the [Exception] of a required variable that is not set, or one that
    [int] raised on the delay, the retries or the port. *)
Theorem init_raises_only (environ : string -> option string)
    (py_int : string -> outcome Z) (e : exn)
    (Hraise : PyAbsenceConfig_init environ py_int = Raise e) :
  (e = PyExn "Exception"
   /\ exists name, In name required_variables /\ unset environ name)
  \/ (exists name s,
         In name ["PYABS_DELAY"; "PYABS_RETRIES"; "MQTT_PORT"]
         /\ environ name = Some s /\ py_int s = Raise e).
Proof.
  unfold PyAbsenceConfig_init in Hraise.
  repeat match type of Hraise with
         | match getenv ?en ?nm true with Ret _ => _ | Raise _ => _ end = _ =>
             let E := fresh "E" in
             destruct (getenv en nm true) eqn:E;
             [ apply getenv_required in E
             | injection Hraise as ->; apply getenv_raises in E;
               destruct E as [_ [-> E]]; left; split; [reflexivity|];
               exists nm; split; [cbn; tauto | exact E] ]
         | match py_int ?s with Ret _ => _ | Raise _ => _ end = _ =>
             let E := fresh "E" in
             destruct (py_int s) eqn:E;
             [ | injection Hraise as ->; right ]
         end;
    try discriminate.
  all: match goal with
       | Hp : _ ?s = Raise _, Hg : _ ?nm = Some ?s /\ _ |- _ =>
           exists nm, s; split; [cbn; tauto | split; [apply Hg | exact Hp]]
       end.
Qed.

(** ** Splitting the trigger list *)

Lemma split_comma_nonempty (s : string) : split_comma s <> [].
Proof.
  destruct s as [|c rest]; cbn; [discriminate|].
  destruct (Ascii.eqb c ","); [discriminate|].
  destruct (split_comma rest); discriminate.
Qed.

Lemma concat_cons_string (c : ascii) (piece : string)
    (pieces : list string) :
  String.concat "," (String c piece :: pieces)
  = String c (String.concat "," (piece :: pieces)).
Proof. destruct pieces; reflexivity. Qed.

Lemma join_split_comma (s : string) :
  String.concat "," (split_comma s) = s.
Proof.
  induction s as [|c rest IH]; [reflexivity|].
  cbn [split_comma]. pose proof (split_comma_nonempty rest) as Hne.
  destruct (split_comma rest) as [|p ps] eqn:E; [contradiction|].
  destruct (Ascii.eqb_spec c ","%char) as [->|Hc].
  - change (String.concat "," ("" :: p :: ps))
      with (String ","%char (String.concat "," (p :: ps))).
    now rewrite IH.
  - now rewrite concat_cons_string, IH.
Qed.

Lemma split_comma_pieces (s : string) :
  Forall (fun piece => contains_char ","%char piece = false)
         (split_comma s).
Proof.
  induction s as [|c rest IH]; [repeat constructor|].
  cbn [split_comma]. destruct (Ascii.eqb_spec c ","%char) as [->|Hc].
  - constructor; [reflexivity | assumption].
  - destruct (split_comma rest) as [|p ps].
    + constructor; [|constructor]. cbn.
      apply Ascii.eqb_neq in Hc. now rewrite Hc.
    + inversion IH as [|? ? Hp Hps]; subst.
      constructor; [|assumption]. cbn.
      apply Ascii.eqb_neq in Hc. now rewrite Hc.
Qed.

Lemma split_comma_length (s : string) :
  List.length (split_comma s) = S (count_commas s).
Proof.
  induction s as [|c rest IH]; [reflexivity|].
  cbn [split_comma count_commas].
  destruct (Ascii.eqb c ","%char).
  - cbn [List.length]. rewrite IH. reflexivity.
  - pose proof (split_comma_nonempty rest) as Hne.
    destruct (split_comma rest) as [|p ps]; [contradiction|].
    cbn [List.length] in *. rewrite IH. reflexivity.
Qed.

Lemma split_comma_piece (piece : string) :
  contains_char ","%char piece = false -> split_comma piece = [piece].
Proof.
  induction piece as [|c rest IH]; [reflexivity|].
  cbn [contains_char split_comma]. intros Hc.
  apply orb_false_iff in Hc. destruct Hc as [Hc Hrest].
  rewrite Hc, (IH Hrest). reflexivity.
Qed.

Lemma split_comma_app (piece s : string) :
  contains_char ","%char piece = false ->
  split_comma (String.append piece (String ","%char s))
  = piece :: split_comma s.
Proof.
  induction piece as [|c rest IH]; intros Hc.
  - reflexivity.
  - cbn [contains_char] in Hc. apply orb_false_iff in Hc.
    destruct Hc as [Hc Hrest].
    cbn [String.append split_comma]. rewrite Hc, (IH Hrest). reflexivity.
Qed.

(** X4. Splitting at commas loses nothing: joining the pieces with commas
    gives the string back, there is one piece more than there are commas
    (so never an empty list), and no piece contains a comma. *)
Theorem split_comma_join (s : string) :
  String.concat "," (split_comma s) = s
  /\ List.length (split_comma s) = S (count_commas s)
  /\ Forall (fun piece => contains_char ","%char piece = false)
            (split_comma s).
Proof.
  split; [apply join_split_comma|].
  split; [apply split_comma_length | apply split_comma_pieces].
Qed.

(** X5. Conversely, splitting a comma-joined list of comma-free pieces
    gives the pieces back, whenever there is at least one piece. *)
Theorem split_comma_of_join (pieces : list string)
    (Hsome : pieces <> [])
    (Hfree : Forall (fun piece => contains_char ","%char piece = false)
                    pieces) :
  split_comma (String.concat "," pieces) = pieces.
Proof.
  induction pieces as [|p ps IH]; [contradiction|].
  inversion Hfree as [|? ? Hp Hps]; subst.
  destruct ps as [|q qs].
  - cbn [String.concat]. now apply split_comma_piece.
  - change (String.concat "," (p :: q :: qs))
      with (String.append p
              (String ","%char (String.concat "," (q :: qs)))).
    rewrite split_comma_app by assumption.
    rewrite IH; [reflexivity | discriminate | assumption].
Qed.

(** X6. A configuration that was loaded has at least one trigger, no
    trigger contains a comma, and the triggers joined with commas are the
    value of [PYABS_TRIGGERS]. *)
Theorem loaded_triggers (environ : string -> option string)
    (py_int : string -> outcome Z) (config : PyAbsenceConfig)
    (Hloaded : PyAbsenceConfig_init environ py_int = Ret config) :
  triggers config <> []
  /\ Forall (fun t => contains_char ","%char t = false) (triggers config)
  /\ environ "PYABS_TRIGGERS"
     = Some (String.concat "," (triggers config)).
Proof.
  unfold PyAbsenceConfig_init in Hloaded. step_init Hloaded.
  injection Hloaded as <-. cbn [triggers].
  apply getenv_required in E. destruct E as [E _].
  split; [apply split_comma_nonempty|].
  split; [apply split_comma_pieces|].
  now rewrite join_split_comma.
Qed.

(** * Further properties: the verdict and the state *)

(** X7. The absence verdict is a membership test: it does not change when
    the observed addresses or the triggers are reordered or repeated, as
    long as the same addresses occur. *)
Theorem is_absent_membership (c1 c2 : PyAbsenceConfig)
    (o1 o2 : observation)
    (Htriggers : forall t, In t (triggers c1) <-> In t (triggers c2))
    (Hseen : forall m, In m o1 <-> In m o2) :
  is_absent c1 o1 = is_absent c2 o2.
Proof.
  assert (Hobs : trigger_observed c1 o1 <-> trigger_observed c2 o2).
  { unfold trigger_observed. split; intros [t [Ht Ho]]; exists t.
    - split; [now apply Htriggers | now apply Hseen].
    - split; [now apply Htriggers | now apply Hseen]. }
  destruct (is_absent c1 o1) eqn:E1; destruct (is_absent c2 o2) eqn:E2;
    try reflexivity.
  - apply is_absent_iff in E1. apply is_present_iff in E2. tauto.
  - apply is_present_iff in E1. apply is_absent_iff in E2. tauto.
Qed.

Lemma mac_addresses_of_returns (devices : list device) :
  Forall (fun d => (3 < List.length d)%nat) devices ->
  mac_addresses_of devices = Ret (map (fun d => nth 3 d "") devices).
Proof.
  induction 1 as [|d ds Hd _ IH]; [reflexivity|].
  cbn [mac_addresses_of map]. unfold device_mac.
  destruct (nth_error d 3) as [m|] eqn:E.
  - rewrite IH. now rewrite (nth_error_nth _ _ _ E).
  - apply nth_error_None in E. lia.
Qed.

Lemma mac_addresses_of_raises (devices : list device) :
  Exists (fun d => (List.length d <= 3)%nat) devices ->
  mac_addresses_of devices = Raise (PyExn "IndexError").
Proof.
  induction devices as [|d ds IH]; intros Hex; [inversion Hex|].
  cbn [mac_addresses_of]. unfold device_mac.
  destruct (nth_error d 3) as [m|] eqn:E.
  - inversion Hex as [? ? Hd | ? ? Hds]; subst.
    + apply nth_error_None in Hd. congruence.
    + now rewrite (IH Hds).
  - reflexivity.
Qed.

Lemma short_or_long (devices : list device) :
  Forall (fun d => (3 < List.length d)%nat) devices
  \/ Exists (fun d => (List.length d <= 3)%nat) devices.
Proof.
  induction devices as [|d ds [IH|IH]].
  - left. constructor.
  - destruct (Nat.le_gt_cases (List.length d) 3).
    + right. now left.
    + left. now constructor.
  - right. now right.
Qed.

(** X8. Extracting the addresses returns exactly when every record has a
    field 3, and then yields that field of each record, in order; if some
    record is shorter it raises [IndexError], and nothing else. *)
Theorem mac_addresses_of_iff (devices : list device) :
  (forall macs,
      mac_addresses_of devices = Ret macs
      <-> Forall (fun d => (3 < List.length d)%nat) devices
          /\ macs = map (fun d => nth 3 d "") devices)
  /\ (forall e,
         mac_addresses_of devices = Raise e
         <-> e = PyExn "IndexError"
             /\ Exists (fun d => (List.length d <= 3)%nat) devices).
Proof.
  destruct (short_or_long devices) as [Hall|Hex].
  - pose proof (mac_addresses_of_returns devices Hall) as Hret. split.
    + intros macs. rewrite Hret. split.
      * intros [= <-]. now split.
      * intros [_ ->]. reflexivity.
    + intros e. rewrite Hret. split; [discriminate|].
      intros [_ Hex]. exfalso.
      apply Exists_exists in Hex. destruct Hex as [d [Hin Hd]].
      rewrite Forall_forall in Hall. specialize (Hall d Hin). lia.
  - pose proof (mac_addresses_of_raises devices Hex) as Hr. split.
    + intros macs. rewrite Hr. split; [discriminate|].
      intros [Hall _]. exfalso.
      apply Exists_exists in Hex. destruct Hex as [d [Hin Hd]].
      rewrite Forall_forall in Hall. specialize (Hall d Hin). lia.
    + intros e. rewrite Hr. split.
      * intros [= <-]. now split.
      * intros [-> _]. reflexivity.
Qed.

(** X9. The counter never goes negative and never exceeds the number of
    cycles run. *)
Theorem absent_count_bounds (config : PyAbsenceConfig)
    (obs : list observation) :
  0 <= absent_count (state_after config obs)
       <= Z.of_nat (List.length obs).
Proof.
  induction obs as [|o obs IH] using rev_ind.
  - cbn. lia.
  - rewrite state_after_snoc, cycle_count, length_app.
    unfold update. destruct (is_absent config o);
      cbn [absent_count List.length]; lia.
Qed.

Lemma notified_implies_over (config : PyAbsenceConfig)
    (obs : list observation) :
  notified (state_after config obs) = true ->
  absent_count (state_after config obs) > retries config.
Proof.
  induction obs as [|o obs IH] using rev_ind; [discriminate|].
  rewrite state_after_snoc, cycle_count. unfold cycle.
  rewrite decide_notified. unfold should_notify, update.
  destruct (is_absent config o); cbn [absent_count notified].
  - destruct (notified (state_after config obs)).
    + intros _. specialize (IH eq_refl). lia.
    + rewrite orb_false_r, andb_true_r. intros Hc.
      apply Z.gtb_lt in Hc. lia.
  - rewrite orb_false_r, andb_true_r. intros Hc.
    apply Z.gtb_lt in Hc. lia.
Qed.

(** X10. At the end of every cycle [notified] says exactly whether
    [absent_count] exceeds [retries], whatever the sign of [retries]. *)
Theorem notified_iff_over_threshold (config : PyAbsenceConfig)
    (obs : list observation) (o : observation) :
  notified (state_after config (obs ++ [o]))
  = (absent_count (state_after config (obs ++ [o])) >? retries config).
Proof.
  pose proof (notified_implies_over config obs) as Hprev.
  rewrite state_after_snoc, cycle_count. unfold cycle.
  rewrite decide_notified. unfold should_notify, update.
  destruct (is_absent config o); cbn [absent_count notified].
  - destruct (notified (state_after config obs)).
    + specialize (Hprev eq_refl). rewrite orb_true_r.
      symmetry. apply Z.gtb_lt. lia.
    + now rewrite orb_false_r, andb_true_r.
  - now rewrite orb_false_r, andb_true_r.
Qed.

(** * Further properties: what the loop does to the outside *)

Section TraceProperties.
Context {W : Type} `{Platform W}.

(** ** Properties of every event of a run *)

Lemma bind_trace_Forall {A B : Type} (P : event -> Prop) (m : M W A)
    (k : A -> M W B) (w : W) :
  Forall P (trace_of (m w)) ->
  (forall a w1, Forall P (trace_of (k a w1))) ->
  Forall P (trace_of (bind m k w)).
Proof.
  intros Hm Hk. unfold bind. destruct (m w) as [[[a|e] w1] t1].
  - specialize (Hk a w1). destruct (k a w1) as [[r w2] t2].
    cbn [trace_of snd] in *. apply Forall_app. now split.
  - exact Hm.
Qed.

Lemma call_trace_Forall {A : Type} (P : event -> Prop)
    (op : W -> outcome A * W) (ev : outcome A -> event) (w : W) :
  (forall r, P (ev r)) -> Forall P (trace_of (call op ev w)).
Proof.
  intros Hev. unfold call. destruct (op w) as [r w1].
  cbn. constructor; [apply Hev | constructor].
Qed.

Lemma publish_while_uses (config : PyAbsenceConfig) (n : nat) :
  forall (attempts : Z) (w : W),
    attempts_left attempts = n ->
    Forall (uses_configuration config)
           (trace_of (MqttClient.publish_while (mqttTopic config) "on"
                        attempts w)).
Proof.
  induction n as [|n IH]; intros attempts w Hn;
    destruct (turn_cases (mqttTopic config) "on" attempts w)
      as [Hge | mid w1 Hlt Hp | rc mid w1 Hlt Hrc Hp | e w1 Hlt Hp];
    try (rewrite attempts_left_step in Hn by assumption; try discriminate);
    try (rewrite publish_while_done by assumption; constructor).
  - rewrite (publish_while_accepted _ _ _ _ _ _ Hlt Hp).
    cbn. repeat constructor.
  - rewrite (publish_while_refused _ _ _ _ _ _ _ Hlt Hrc Hp).
    injection Hn as Hn. cbn [trace_of snd].
    constructor; [now split|]. constructor; [exact I|]. now apply IH.
  - rewrite (publish_while_raised _ _ _ _ _ _ Hlt Hp).
    cbn. repeat constructor.
Qed.

Lemma callbacks_use (config : PyAbsenceConfig) (w : W) :
  Forall (uses_configuration config)
         (trace_of (MqttClient.network_loop_callbacks w)).
Proof.
  rewrite network_loop_callbacks_logs. cbn [trace_of snd].
  induction (fst (client_network_loop w)); constructor;
    [exact I | assumption].
Qed.

Lemma notify_uses (config : PyAbsenceConfig) (w : W) :
  Forall (uses_configuration config)
         (trace_of (MqttClient.notify (client_of config)
                      (mqttTopic config) "on" w)).
Proof.
  unfold MqttClient.notify, MqttClient.__connect__, MqttClient.__publish__.
  apply bind_trace_Forall.
  { apply bind_trace_Forall; [constructor | intros _ w0].
    apply call_trace_Forall. intros r. now split. }
  intros _ w1.
  apply bind_trace_Forall;
    [apply call_trace_Forall; intros r; exact I | intros _ w2].
  apply bind_trace_Forall; [apply callbacks_use | intros _ w3].
  apply bind_trace_Forall;
    [apply (publish_while_uses config 5 0 w3 eq_refl) | intros _ w4].
  apply bind_trace_Forall;
    [apply call_trace_Forall; intros r; exact I | intros _ w5].
  apply callbacks_use.
Qed.

Lemma main_cycle_uses (config : PyAbsenceConfig) (st : state) (w : W) :
  Forall (uses_configuration config)
         (trace_of (main_cycle config (client_of config) st w)).
Proof.
  unfold main_cycle.
  apply bind_trace_Forall;
    [apply call_trace_Forall; intros r; exact I | intros devices w1].
  apply bind_trace_Forall; [constructor | intros macs w2]. cbv zeta.
  apply bind_trace_Forall.
  { destruct (is_absent config macs).
    - apply bind_trace_Forall; [repeat constructor | intros; constructor].
    - apply bind_trace_Forall; [|intros; constructor].
      destruct (notified st); [repeat constructor | constructor]. }
  intros st1 w3. apply bind_trace_Forall.
  { destruct (_ && _); [|constructor].
    apply bind_trace_Forall; [repeat constructor | intros _ w4].
    apply bind_trace_Forall; [apply notify_uses | intros; constructor]. }
  intros st2 w4.
  apply bind_trace_Forall; [|intros; constructor].
  apply call_trace_Forall. intros r. reflexivity.
Qed.

(** X12. Whatever happens, the loop only ever connects to the configured
    broker and port, only ever publishes the payload [on] to the
    configured topic, and only ever sleeps for the configured delay. *)
Theorem loop_uses_configuration (config : PyAbsenceConfig) (n : nat)
    (st : state) (w : W) :
  Forall (uses_configuration config)
         (trace_of (main_loop config (client_of config) n st w)).
Proof.
  revert st w. induction n as [|n IH]; intros st w.
  - constructor.
  - cbn [main_loop]. apply bind_trace_Forall.
    + apply main_cycle_uses.
    + intros st1 w1. apply IH.
Qed.

(** ** Exceptions *)

Lemma clean_app (t u : list event) : clean t -> clean u -> clean (t ++ u).
Proof. intros Ht Hu. apply Forall_app. now split. Qed.

Lemma bind_propagates {A B : Type} (m : M W A) (k : A -> M W B) (w : W) :
  propagates (m w) ->
  (forall a w1, propagates (k a w1)) ->
  propagates (bind m k w).
Proof.
  intros Hm Hk. unfold bind. destruct (m w) as [[[a|e] w1] t1].
  - specialize (Hk a w1). destruct (k a w1) as [[r w2] t2].
    assert (Ht1 : clean t1).
    { destruct Hm as [Hc | [before [ev [e [_ [_ [_ Hout]]]]]]];
        [exact Hc | discriminate]. }
    destruct Hk as [Hc | [before [ev [e [Htr [Hb [Hev Hout]]]]]]];
      cbn [trace_of outcome_of fst snd] in *.
    + left. now apply clean_app.
    + right. exists (t1 ++ before), ev, e. subst t2.
      repeat split; [now rewrite app_assoc | now apply clean_app
                    | assumption | assumption].
  - destruct Hm as [Hc | [before [ev [e' [Htr [Hb [Hev Hout]]]]]]];
      [now left | right].
    cbn [trace_of outcome_of fst snd] in *. injection Hout as ->.
    now exists before, ev, e'.
Qed.

Lemma call_propagates {A : Type} (op : W -> outcome A * W)
    (ev : outcome A -> event) (w : W) :
  (forall r, raised_by (ev r)
             = match r with Ret _ => None | Raise e => Some e end) ->
  propagates (call op ev w).
Proof.
  intros Hev. unfold call, propagates. destruct (op w) as [[a|e] w1].
  - left. cbn. constructor; [apply (Hev (Ret a)) | constructor].
  - right. exists [], (ev (Raise e)), e. cbn.
    repeat split; [constructor | apply (Hev (Raise e))].
Qed.

Lemma quiet_propagates {A : Type} (r : outcome A) (w : W)
    (t : list event) :
  clean t -> propagates (r, w, t).
Proof. intros Hc. now left. Qed.

Lemma publish_while_propagates (topic msg : string) (n : nat) :
  forall (attempts : Z) (w : W),
    attempts_left attempts = n ->
    propagates (MqttClient.publish_while topic msg attempts w).
Proof.
  induction n as [|n IH]; intros attempts w Hn;
    rewrite publish_while_step;
    destruct (Z.ltb_spec attempts 5) as [Hlt|Hge];
    try (rewrite attempts_left_step in Hn by assumption; try discriminate);
    try (apply quiet_propagates; constructor).
  injection Hn as Hn.
  apply bind_propagates;
    [apply call_propagates; intros []; reflexivity | intros result w1].
  destruct (fst result =? 0).
  - apply quiet_propagates. repeat constructor.
  - apply bind_propagates;
      [apply quiet_propagates; repeat constructor | intros _ w2].
    now apply IH.
Qed.

Lemma callbacks_propagate (w : W) :
  propagates (MqttClient.network_loop_callbacks w).
Proof.
  rewrite network_loop_callbacks_logs. apply quiet_propagates.
  apply connection_lines_clean.
Qed.

Lemma notify_propagates (self : MqttClient.t) (topic msg : string)
    (w : W) :
  propagates (MqttClient.notify self topic msg w).
Proof.
  unfold MqttClient.notify, MqttClient.__connect__, MqttClient.__publish__.
  apply bind_propagates.
  { apply bind_propagates;
      [apply quiet_propagates; constructor | intros _ w0].
    apply call_propagates. intros []; reflexivity. }
  intros _ w1.
  apply bind_propagates;
    [apply call_propagates; intros []; reflexivity | intros _ w2].
  apply bind_propagates; [apply callbacks_propagate | intros _ w3].
  apply bind_propagates;
    [apply (publish_while_propagates topic msg 5 0 w3 eq_refl)
    | intros _ w4].
  apply bind_propagates;
    [apply call_propagates; intros []; reflexivity | intros _ w5].
  apply callbacks_propagate.
Qed.

Lemma main_cycle_propagates (config : PyAbsenceConfig)
    (mq : MqttClient.t) (st : state) (w : W) :
  propagates (main_cycle config mq st w).
Proof.
  unfold main_cycle.
  apply bind_propagates;
    [apply call_propagates; intros []; reflexivity | intros devices w1].
  apply bind_propagates;
    [apply quiet_propagates; constructor | intros macs w2]. cbv zeta.
  apply bind_propagates.
  { destruct (is_absent config macs).
    - apply bind_propagates; [|intros]; apply quiet_propagates;
        repeat constructor.
    - apply bind_propagates; [|intros; apply quiet_propagates; constructor].
      destruct (notified st); apply quiet_propagates; repeat constructor. }
  intros st1 w3. apply bind_propagates.
  { destruct (_ && _); [|apply quiet_propagates; constructor].
    apply bind_propagates;
      [apply quiet_propagates; repeat constructor | intros _ w4].
    apply bind_propagates;
      [apply notify_propagates
      | intros; apply quiet_propagates; constructor]. }
  intros st2 w4.
  apply bind_propagates; [|intros; apply quiet_propagates; constructor].
  apply call_propagates. intros []; reflexivity.
Qed.

Lemma main_loop_propagates (config : PyAbsenceConfig)
    (mq : MqttClient.t) (n : nat) :
  forall (st : state) (w : W), propagates (main_loop config mq n st w).
Proof.
  induction n as [|n IH]; intros st w.
  - apply quiet_propagates. constructor.
  - cbn [main_loop]. apply bind_propagates.
    + apply main_cycle_propagates.
    + intros st1 w1. apply IH.
Qed.

Lemma propagates_last {A : Type} (x : outcome A * W * list event)
    (before after : list event) (ev : event) (e : exn) :
  propagates x ->
  trace_of x = before ++ ev :: after ->
  raised_by ev = Some e ->
  after = [] /\ outcome_of x = Raise e.
Proof.
  intros [Hc | [b [ev' [e' [Htr [Hb [Hev' Hout]]]]]]] Hsplit Hev.
  - unfold clean in Hc. rewrite Hsplit in Hc.
    apply Forall_app in Hc. destruct Hc as [_ Hc].
    inversion Hc as [|? ? Hnone _]; subst. congruence.
  - rewrite Htr in Hsplit.
    destruct after as [|a after] using rev_ind.
    + apply app_inj_tail in Hsplit. destruct Hsplit as [_ ->].
      split; [reflexivity | congruence].
    + clear IHafter.
      change (before ++ ev :: after ++ [a])
        with (before ++ (ev :: after) ++ [a]) in Hsplit.
      rewrite app_assoc in Hsplit.
      apply app_inj_tail in Hsplit. destruct Hsplit as [-> _].
      unfold clean in Hb. apply Forall_app in Hb. destruct Hb as [_ Hb].
      inversion Hb as [|? ? Hnone _]; subst. congruence.
Qed.

(** X13. No exception is swallowed: if any library call of a run of the
    loop raised, that call is the last thing the run did and the run ends
    with that very exception. *)
Theorem exceptions_end_the_loop (config : PyAbsenceConfig)
    (mq : MqttClient.t) (n : nat) (st : state) (w : W)
    (before after : list event) (ev : event) (e : exn)
    (Htrace : trace_of (main_loop config mq n st w)
              = before ++ ev :: after)
    (Hraised : raised_by ev = Some e) :
  after = [] /\ outcome_of (main_loop config mq n st w) = Raise e.
Proof.
  apply (propagates_last _ before after ev e);
    [apply main_loop_propagates | assumption | assumption].
Qed.
End TraceProperties.

Section MoreTraceProperties.
Context {W : Type} `{Platform W}.

Lemma propagates_returned {A : Type} (x : outcome A * W * list event)
    (a : A) :
  propagates x -> outcome_of x = Ret a -> clean (trace_of x).
Proof.
  intros [Hc | [before [ev [e [_ [_ [_ Hout]]]]]]] Hret;
    [exact Hc | congruence].
Qed.




Lemma publish_while_logs (topic msg : string) (n : nat) :
  forall (attempts : Z) (w : W),
    attempts_left attempts = n ->
    let t := trace_of (MqttClient.publish_while topic msg attempts w) in
    List.length (filter is_send_failed t)
    = List.length (filter is_refused_publish t)
    /\ List.length (filter is_sent t)
       = List.length (filter is_accepted_publish t)
    /\ (List.length (filter is_accepted_publish t) <= 1)%nat.
Proof.
  induction n as [|n IH]; intros attempts w Hn;
    destruct (turn_cases topic msg attempts w)
      as [Hge | mid w1 Hlt Hp | rc mid w1 Hlt Hrc Hp | e w1 Hlt Hp];
    try (rewrite attempts_left_step in Hn by assumption; try discriminate);
    try (rewrite publish_while_done by assumption; cbn; lia).
  - rewrite (publish_while_accepted _ _ _ _ _ _ Hlt Hp). cbn. lia.
  - rewrite (publish_while_refused _ _ _ _ _ _ _ Hlt Hrc Hp).
    injection Hn as Hn. specialize (IH (attempts + 1) w1 Hn).
    cbn [trace_of snd] in *. cbv zeta in *.
    cbn [filter is_send_failed is_refused_publish is_sent
         is_accepted_publish].
    apply Z.eqb_neq in Hrc. rewrite Hrc. cbn [negb List.length]. lia.
  - rewrite (publish_while_raised _ _ _ _ _ _ Hlt Hp). cbn. lia.
Qed.

(** X15. In every [__publish__] call each refused publish is followed by
    its failure log line and each accepted one by its success line: the
    failure lines are as many as the refused publishes, the success lines
    as many as the accepted ones, of which there is at most one. *)
Theorem publish_logs_match (self : MqttClient.t) (topic msg : string)
    (w : W) :
  List.length (filter is_send_failed
                 (trace_of (MqttClient.__publish__ self topic msg w)))
  = List.length (filter is_refused_publish
                   (trace_of (MqttClient.__publish__ self topic msg w)))
  /\ List.length (filter is_sent
                    (trace_of (MqttClient.__publish__ self topic msg w)))
     = List.length (filter is_accepted_publish
                      (trace_of (MqttClient.__publish__ self topic msg w)))
  /\ (List.length (filter is_accepted_publish
                     (trace_of (MqttClient.__publish__ self topic msg w)))
      <= 1)%nat.
Proof. apply (publish_while_logs topic msg 5 0 w eq_refl). Qed.

(** X16. A scanned record without a field 3 ends the loop with
    [IndexError] right after the scan: nothing is logged, the state is not
    updated, the broker is not contacted, and there is no sleep. *)
Theorem short_record_ends_the_loop (config : PyAbsenceConfig)
    (mq : MqttClient.t) (st : state) (w w1 : W) (devices : list device)
    (Hscan : who w = (Ret devices, w1))
    (Hshort : Exists (fun d => (List.length d <= 3)%nat) devices) :
  main_cycle config mq st w
  = (Raise (PyExn "IndexError"), w1, [EvWho (Ret devices)])
  /\ forall n : nat,
       main_loop config mq (S n) st w
       = (Raise (PyExn "IndexError"), w1, [EvWho (Ret devices)]).
Proof.
  assert (Hc : main_cycle config mq st w
               = (Raise (PyExn "IndexError"), w1, [EvWho (Ret devices)])).
  { unfold main_cycle. unfold bind at 1. unfold call at 1. rewrite Hscan.
    unfold bind at 1. unfold lift at 1.
    now rewrite (mac_addresses_of_raises devices Hshort). }
  split; [exact Hc|]. intros n. cbn [main_loop].
  now apply bind_raises.
Qed.

(** X17. A cycle in which no notification is due never touches the MQTT
    client: it scans, logs at most one line, and sleeps. *)
Theorem quiet_cycle_leaves_broker_alone (config : PyAbsenceConfig)
    (mq : MqttClient.t) (st : state) (w w1 : W) (devices : list device)
    (macs : observation)
    (Hscan : who w = (Ret devices, w1))
    (Hmacs : mac_addresses_of devices = Ret macs)
    (Hquiet : snd (cycle config st macs) = false) :
  exists (logs : list event) (r : outcome unit),
    trace_of (main_cycle config mq st w)
    = EvWho (Ret devices) :: logs ++ [EvSleep (delay config) r]
    /\ (List.length logs <= 1)%nat
    /\ Forall (fun ev => exists l, ev = EvLog l) logs
    /\ filter is_broker_call (trace_of (main_cycle config mq st w)) = [].
Proof.
  remember (main_cycle config mq st w) as x eqn:Hx.
  unfold main_cycle in Hx. unfold bind at 1 in Hx. unfold call at 1 in Hx.
  rewrite Hscan in Hx.
  unfold bind at 1 in Hx. unfold lift at 1 in Hx. rewrite Hmacs in Hx.
  rewrite cycle_fired in Hquiet. unfold should_notify, update in Hquiet.
  unfold bind, call, logging_info, ret in Hx.
  destruct (is_absent config macs); destruct (notified st);
    cbn [absent_count notified] in *; rewrite Hquiet in Hx;
    destruct (sleep (delay config) w1) as [r w3];
    destruct r as [[]|e]; subst x; cbn [trace_of snd app].
  all: first
    [ (exists [EvLog LogNooneHere]; eexists; cbn;
       repeat split; [lia | repeat constructor; eexists; reflexivity])
    | (exists [EvLog LogSomeoneReturned]; eexists; cbn;
       repeat split; [lia | repeat constructor; eexists; reflexivity])
    | (exists []; eexists; cbn; repeat split; [lia | constructor]) ].
Qed.

(** X11. The loop refines the controller: when [n] iterations complete,
    the trace holds [n] observations, the final state is the controller's
    state after those observations, and [notify] was entered exactly as
    often as the controller dispatches on them. *)
Theorem loop_refines_controller (config : PyAbsenceConfig) (n : nat)
    (w : W) (st' : state)
    (Hdone : outcome_of (main_from_loop config n w) = Ret st') :
  List.length (observed (trace_of (main_from_loop config n w))) = n
  /\ st' = state_after config
             (observed (trace_of (main_from_loop config n w)))
  /\ dispatches (trace_of (main_from_loop config n w))
     = notifications
         (fires_of config initial
            (observed (trace_of (main_from_loop config n w)))).
Proof.
  unfold main_from_loop in *.
  apply (main_loop_refines config (client_of config) n initial st' w Hdone).
Qed.
End MoreTraceProperties.

(** * The theorems at a concrete installation *)

Ltac all_absent :=
  repeat (apply Forall_cons; [apply is_absent_iff; reflexivity|]);
  apply Forall_nil.

Ltac seen := apply is_present_iff; reflexivity.

(** The scenario of the specification: threshold 2 and the observations
    none, none, none, phone, none. *)
Example scenario_counts :
  map (fun n => absent_count
                  (state_after (home_config 2)
                     (firstn n [nobody; nobody; nobody; phone_seen; nobody])))
      [1; 2; 3; 4; 5]%nat
  = [1; 2; 3; 0; 1].
Proof. reflexivity. Qed.

Example scenario_fires :
  fires_of (home_config 2) initial
           [nobody; nobody; nobody; phone_seen; nobody]
  = [false; false; true; false; false].
Proof. reflexivity. Qed.

Lemma notification_iff_threshold_and_not_notified_witness :
  (snd (cycle (home_config 2)
              (state_after (home_config 2) [nobody; nobody]) nobody) = true
   <-> (absent_count (update (home_config 2)
                         (state_after (home_config 2) [nobody; nobody])
                         nobody) > 2
        /\ notified (state_after (home_config 2) [nobody; nobody]) = false))
  /\ snd (cycle (home_config 2)
                (state_after (home_config 2) [nobody]) phone_seen) = false
  /\ (notifications
        (fires_of (home_config 2) (state_after (home_config 2) [phone_seen])
                  [nobody; nobody; nobody; nobody]) <= 1)%nat
  /\ (notifications
        (fires_of (home_config 2) initial
                  [nobody; nobody; nobody; phone_seen; nobody])
      <= episodes (home_config 2)
                  [nobody; nobody; nobody; phone_seen; nobody])%nat.
Proof.
  assert (Hr : 0 <= retries (home_config 2)) by (cbn; lia).
  destruct (notification_iff_threshold_and_not_notified (home_config 2) Hr)
    as [Hiff [Hpresent [Hrun Htotal]]].
  split; [apply (Hiff [nobody; nobody] nobody)|].
  split; [apply (Hpresent [nobody] phone_seen); seen|].
  split; [apply (Hrun [phone_seen]); all_absent|].
  apply Htotal.
Defined.

Lemma notification_on_retries_plus_one_witness :
  nth 2 (fires_of (home_config 2) initial [nobody; nobody; nobody]) false
  = (Z.of_nat 3 =? retries (home_config 2) + 1)
  /\ fires_of (home_config 0) initial [nobody] = [true].
Proof.
  split.
  - apply (proj1 (notification_on_retries_plus_one (home_config 2)
                    ltac:(cbn; lia)));
      [all_absent | cbn; lia].
  - apply (proj2 (notification_on_retries_plus_one (home_config 0)
                    ltac:(cbn; lia)));
      [reflexivity | apply is_absent_iff; reflexivity].
Defined.

Lemma presence_resets_witness :
  update (home_config 2) (mkState 7 true) phone_seen = mkState 0 false
  /\ update (home_config 2)
            (update (home_config 2) (mkState 7 true) phone_seen) phone_seen
     = update (home_config 2) (mkState 7 true) phone_seen
  /\ fst (cycle (home_config 2)
                (fst (cycle (home_config 2) (mkState 7 true) phone_seen))
                phone_seen)
     = fst (cycle (home_config 2) (mkState 7 true) phone_seen)
  /\ fst (cycle (home_config 2) (mkState 7 true) phone_seen)
     = mkState 0 false.
Proof.
  destruct (presence_resets (home_config 2) (mkState 7 true) phone_seen
              ltac:(seen)) as [H1 [H2 [H3 H4]]].
  split; [exact H1|]. split; [exact H2|]. split; [exact H3|].
  apply H4. cbn. lia.
Defined.

Lemma two_episodes_two_notifications_witness :
  notifications
    (fires_of (home_config 1) initial
              ([nobody; nobody] ++ [phone_seen] ++ [nobody; nobody]))
  = 2%nat.
Proof.
  apply (two_episodes_two_notifications (home_config 1)).
  - cbn; lia.
  - reflexivity.
  - all_absent.
  - seen.
  - reflexivity.
  - all_absent.
Defined.

Lemma notified_transitions_witness :
  absent_count (update (home_config 2)
                  (state_after (home_config 2) [nobody; nobody]) nobody)
  > retries (home_config 2)
  /\ trigger_observed (home_config 2) phone_seen.
Proof.
  split.
  - apply (proj1 (notified_transitions (home_config 2)
                    (state_after (home_config 2) [nobody; nobody])
                    (reachable_state_after _ _) nobody));
      reflexivity.
  - apply (proj2 (notified_transitions (home_config 2)
                    (state_after (home_config 2) [nobody; nobody; nobody])
                    (reachable_state_after _ _) phone_seen));
      reflexivity.
Defined.

Lemma negative_retries_notify_on_presence_witness :
  snd (cycle (home_config (-1)) initial phone_seen) = true
  /\ notifications (fires_of (home_config (-1)) initial
                             (repeat phone_seen 4)) = 4%nat
  /\ episodes (home_config (-1)) (repeat phone_seen 4) = O.
Proof.
  destruct (negative_retries_notify_on_presence (home_config (-1))
              ltac:(cbn; lia)) as [Hfirst [_ [Hrun _]]].
  split; [apply Hfirst|].
  apply Hrun. seen.
Defined.

(** ** The notifier and the loop on scripted worlds *)

(** The scenario run by the loop itself: five iterations end in the state
    (1, False), having entered [notify] once, on the third. *)
Example scenario_loop :
  main_from_loop (home_config 2) 5 scenario_world
  = (Ret (mkState 1 false), mkScript [] [] [],
     [EvWho (Ret []); EvLog LogNooneHere; EvSleep 60 (Ret tt);
      EvWho (Ret []); EvLog LogNooneHere; EvSleep 60 (Ret tt);
      EvWho (Ret []); EvLog LogNooneHere; EvLog LogEveryoneMissing;
      EvConnect "broker.lan" 1883 (Ret tt); EvLoopStart (Ret tt);
      EvPublish "home/away" "on" (Ret (0, 1));
      EvLog (LogSent "on" "home/away");
      EvLoopStop (Ret tt); EvSleep 60 (Ret tt);
      EvWho (Ret [device_with_mac "AA:BB"]); EvLog LogSomeoneReturned;
      EvSleep 60 (Ret tt);
      EvWho (Ret []); EvLog LogNooneHere; EvSleep 60 (Ret tt)]).
Proof. vm_compute. reflexivity. Qed.

(** The same scenario with a broker that answers the connection: the
    callback's line appears once the network thread is started. *)
Example scenario_loop_connected :
  filter is_broker_call
         (trace_of (main_from_loop (home_config 2) 3
                                   scenario_world_answering))
  = [EvConnect "broker.lan" 1883 (Ret tt); EvLoopStart (Ret tt);
     EvPublish "home/away" "on" (Ret (0, 1)); EvLoopStop (Ret tt)]
  /\ skipn 8 (trace_of (main_from_loop (home_config 2) 3
                                       scenario_world_answering))
     = [EvLog LogEveryoneMissing;
        EvConnect "broker.lan" 1883 (Ret tt); EvLoopStart (Ret tt);
        EvLog LogConnected;
        EvPublish "home/away" "on" (Ret (0, 1));
        EvLog (LogSent "on" "home/away");
        EvLoopStop (Ret tt); EvSleep 60 (Ret tt)].
Proof. split; vm_compute; reflexivity. Qed.

(** Two refused publishes, then an accepted one. *)
Example notify_third_attempt :
  MqttClient.notify (client_of (home_config 0)) "home/away" "on" broker_slow
  = (Ret tt, mkScript [] [] [],
     [EvConnect "broker.lan" 1883 (Ret tt); EvLoopStart (Ret tt);
      EvPublish "home/away" "on" (Ret (4, 0));
      EvLog (LogSendFailed "home/away");
      EvPublish "home/away" "on" (Ret (4, 0));
      EvLog (LogSendFailed "home/away");
      EvPublish "home/away" "on" (Ret (0, 3));
      EvLog (LogSent "on" "home/away");
      EvLoopStop (Ret tt)]).
Proof. vm_compute. reflexivity. Qed.


(** With a broker that refuses the connection, [notify] raises and the
    loop ends on the cycle that dispatches: the second and third
    iterations never run. *)
Lemma connect_failure_ends_the_loop :
  MqttClient.notify (client_of (home_config 0)) "home/away" "on" broker_down
  = (Raise (PyExn "ConnectionRefusedError"), mkScript [] [] [],
     [EvConnect "broker.lan" 1883 (Raise (PyExn "ConnectionRefusedError"))])
  /\ main_from_loop (home_config 0) 3 broker_down
     = (Raise (PyExn "ConnectionRefusedError"), mkScript [] [] [],
        [EvWho (Ret []); EvLog LogNooneHere; EvLog LogEveryoneMissing;
         EvConnect "broker.lan" 1883
                   (Raise (PyExn "ConnectionRefusedError"))])
  /\ ~ (exists st' : state,
          outcome_of (main_from_loop (home_config 0) 3 broker_down)
          = Ret st').
Proof.
  split; [|split]; [vm_compute; reflexivity | vm_compute; reflexivity |].
  intros [st' Hout]. vm_compute in Hout. discriminate.
Qed.

(** A refused connection reported through the callback, and five refused
    publishes: every line is logged and [notify] returns. *)
Lemma notify_raises_only_with_the_library_witness :
  outcome_of (MqttClient.notify (client_of (home_config 0))
                "home/away" "on" broker_unauthorised) = Ret tt
  /\ MqttClient.notify (client_of (home_config 0)) "home/away" "on"
                       broker_unauthorised
     = (Ret tt, mkScript [] [] [],
        [EvConnect "broker.lan" 1883 (Ret tt); EvLoopStart (Ret tt);
         EvLog (LogConnectFailed 5);
         EvPublish "home/away" "on" (Ret (4, 0));
         EvLog (LogSendFailed "home/away");
         EvPublish "home/away" "on" (Ret (4, 0));
         EvLog (LogSendFailed "home/away");
         EvPublish "home/away" "on" (Ret (4, 0));
         EvLog (LogSendFailed "home/away");
         EvPublish "home/away" "on" (Ret (4, 0));
         EvLog (LogSendFailed "home/away");
         EvPublish "home/away" "on" (Ret (4, 0));
         EvLog (LogSendFailed "home/away");
         EvLoopStop (Ret tt)])
  /\ MqttClient.notify (client_of (home_config 0)) "home/away" "on"
                       broker_down
     = (Raise (PyExn "ConnectionRefusedError"), mkScript [] [] [],
        [EvConnect "broker.lan" 1883
                   (Raise (PyExn "ConnectionRefusedError"))])
  /\ outcome_of (main_loop (home_config 0) (client_of (home_config 0))
                           3 initial broker_down)
     = Raise (PyExn "ConnectionRefusedError").
Proof.
  split; [|split; [|split]].
  - apply (proj2 (proj1
             (notify_raises_only_with_the_library
                (client_of (home_config 0)) "home/away" "on"
                broker_unauthorised))).
    vm_compute. repeat constructor.
  - etransitivity.
    + apply (proj1 (proj2
               (notify_raises_only_with_the_library
                  (client_of (home_config 0)) "home/away" "on"
                  broker_unauthorised))
               broker_unauthorised broker_unauthorised
               (mkWorld [] [] (repeat (Ret (4, 0)) 5) []) [5]);
        reflexivity.
    + vm_compute. reflexivity.
  - apply (proj1 (proj2 (proj2
             (notify_raises_only_with_the_library
                (client_of (home_config 0)) "home/away" "on" broker_down)))).
    reflexivity.
  - apply (proj2 (proj2 (proj2
             (notify_raises_only_with_the_library
                (client_of (home_config 0)) "home/away" "on" broker_down)))
             (home_config 0) initial broker_down [] []
             (PyExn "ConnectionRefusedError") (mkScript [] [] []) 2%nat);
      reflexivity.
Defined.

(** A scan that raises on the second iteration ends the loop there: the
    failure is not logged and the third iteration never runs. *)
Lemma scan_failure_ends_the_loop :
  main_from_loop (home_config 2) 3 scanner_down
  = (Raise (PyExn "OSError"), mkScript [Ret []] [] [],
     [EvWho (Ret []); EvLog LogNooneHere; EvSleep 60 (Ret tt);
      EvWho (Raise (PyExn "OSError"))])
  /\ ~ (exists st' : state,
          outcome_of (main_from_loop (home_config 2) 3 scanner_down)
          = Ret st').
Proof.
  split; [vm_compute; reflexivity|].
  intros [st' Hout]. vm_compute in Hout. discriminate.
Qed.

Lemma scan_failure_propagates_witness :
  main_cycle (home_config 2) (client_of (home_config 2)) (mkState 1 false)
             (mkScript [Raise (PyExn "OSError"); Ret []] [] [])
  = (Raise (PyExn "OSError"), mkScript [Ret []] [] [],
     [EvWho (Raise (PyExn "OSError"))])
  /\ forall n : nat,
       main_loop (home_config 2) (client_of (home_config 2)) (S n)
                 (mkState 1 false)
                 (mkScript [Raise (PyExn "OSError"); Ret []] [] [])
       = (Raise (PyExn "OSError"), mkScript [Ret []] [] [],
          [EvWho (Raise (PyExn "OSError"))]).
Proof.
  apply (scan_failure_propagates (home_config 2) (client_of (home_config 2))
           (mkState 1 false)
           (mkScript [Raise (PyExn "OSError"); Ret []] [] [])
           (mkScript [Ret []] [] []) (PyExn "OSError")).
  reflexivity.
Defined.

(** ** Loading, scanning and failing on concrete inputs *)

(** A negative threshold is loaded like any other. *)
Example loads_negative_retries :
  PyAbsenceConfig_init (home_environ "-1") decimal_int
  = Ret (mkConfig ["AA:BB"; "CC:DD"] 60 (-1) "broker.lan" 1883
                  "home/away" "pyabsence").
Proof. vm_compute. reflexivity. Qed.

Example rejects_malformed_retries :
  PyAbsenceConfig_init (home_environ "two") decimal_int
  = Raise (PyExn "ValueError").
Proof. vm_compute. reflexivity. Qed.

Lemma init_raises_only_witness :
  (PyExn "Exception" = PyExn "Exception"
   /\ exists name, In name required_variables
                   /\ unset no_topic_environ name)
  \/ (exists name s,
         In name ["PYABS_DELAY"; "PYABS_RETRIES"; "MQTT_PORT"]
         /\ no_topic_environ name = Some s
         /\ decimal_int s = Raise (PyExn "Exception")).
Proof.
  apply (init_raises_only no_topic_environ decimal_int (PyExn "Exception")).
  vm_compute. reflexivity.
Defined.

Lemma split_comma_of_join_witness :
  split_comma (String.concat "," ["AA:BB"; ""; "CC:DD"])
  = ["AA:BB"; ""; "CC:DD"].
Proof.
  apply split_comma_of_join.
  - discriminate.
  - repeat constructor.
Defined.

Lemma loaded_triggers_witness :
  triggers (mkConfig ["AA:BB"; "CC:DD"] 60 2 "broker.lan" 1883
                     "home/away" "pyabsence") <> []
  /\ Forall (fun t => contains_char ","%char t = false)
            (triggers (mkConfig ["AA:BB"; "CC:DD"] 60 2 "broker.lan" 1883
                                "home/away" "pyabsence"))
  /\ home_environ "2" "PYABS_TRIGGERS"
     = Some (String.concat ","
               (triggers (mkConfig ["AA:BB"; "CC:DD"] 60 2 "broker.lan"
                                   1883 "home/away" "pyabsence"))).
Proof.
  apply (loaded_triggers (home_environ "2") decimal_int).
  vm_compute. reflexivity.
Defined.

Lemma is_absent_membership_witness :
  is_absent (home_config 2) ["11:22"; "AA:BB"]
  = is_absent (mkConfig ["AA:BB"; "AA:BB"] 5 0 "b" 1 "t" "c")
              ["AA:BB"; "11:22"; "11:22"].
Proof.
  apply is_absent_membership.
  - intros t. cbn. tauto.
  - intros m. cbn. tauto.
Defined.

Lemma loop_refines_controller_witness :
  List.length (observed (trace_of
                           (main_from_loop (home_config 2) 5
                                           scenario_world))) = 5%nat
  /\ mkState 1 false
     = state_after (home_config 2)
         (observed (trace_of (main_from_loop (home_config 2) 5
                                             scenario_world)))
  /\ dispatches (trace_of (main_from_loop (home_config 2) 5 scenario_world))
     = notifications
         (fires_of (home_config 2) initial
            (observed (trace_of (main_from_loop (home_config 2) 5
                                                scenario_world)))).
Proof.
  apply (loop_refines_controller (home_config 2) 5 scenario_world
           (mkState 1 false)).
  vm_compute. reflexivity.
Defined.

Lemma exceptions_end_the_loop_witness :
  @nil event = []
  /\ outcome_of (main_loop (home_config 2) (client_of (home_config 2)) 3
                           initial scanner_down)
     = Raise (PyExn "OSError").
Proof.
  apply (exceptions_end_the_loop (home_config 2)
           (client_of (home_config 2)) 3 initial scanner_down
           [EvWho (Ret []); EvLog LogNooneHere; EvSleep 60 (Ret tt)] []
           (EvWho (Raise (PyExn "OSError"))) (PyExn "OSError")).
  - vm_compute. reflexivity.
  - reflexivity.
Defined.

Lemma short_record_ends_the_loop_witness :
  main_cycle (home_config 2) (client_of (home_config 2)) initial
             short_record_world
  = (Raise (PyExn "IndexError"), mkScript [Ret []] [] [],
     [EvWho (Ret [device_with_mac "AA:BB"; ["192.168.1.9"; "tv"]])])
  /\ forall n : nat,
       main_loop (home_config 2) (client_of (home_config 2)) (S n) initial
                 short_record_world
       = (Raise (PyExn "IndexError"), mkScript [Ret []] [] [],
          [EvWho (Ret [device_with_mac "AA:BB"; ["192.168.1.9"; "tv"]])]).
Proof.
  apply (short_record_ends_the_loop (home_config 2)
           (client_of (home_config 2)) initial short_record_world
           (mkScript [Ret []] [] [])
           [device_with_mac "AA:BB"; ["192.168.1.9"; "tv"]]).
  - reflexivity.
  - right. left. cbn. lia.
Defined.

Lemma quiet_cycle_leaves_broker_alone_witness :
  exists (logs : list event) (r : outcome unit),
    trace_of (main_cycle (home_config 2) (client_of (home_config 2))
                         initial scenario_world)
    = EvWho (Ret []) :: logs ++ [EvSleep (delay (home_config 2)) r]
    /\ (List.length logs <= 1)%nat
    /\ Forall (fun ev => exists l, ev = EvLog l) logs
    /\ filter is_broker_call
         (trace_of (main_cycle (home_config 2) (client_of (home_config 2))
                               initial scenario_world)) = [].
Proof.
  apply (quiet_cycle_leaves_broker_alone (home_config 2)
           (client_of (home_config 2)) initial scenario_world
           (mkScript [Ret []; Ret []; Ret [device_with_mac "AA:BB"]; Ret []]
                     [] [])
           [] []); reflexivity.
Defined.

